(** * Meal-planning optimiser: a shallow embedding of [src/meal_optimizer.py]
      and of [run_optimization] from [app.py].

    Numbers that the Python code reads from JSON (ints and floats) are
    modelled as rationals [Q]; [float('inf')] is the extra value [Infinity]
    of [bound].  Python dicts keyed by strings are [gmap string _]; Python
    lists are lists.  The LP backend behind [problem.solve()] is a black
    box and is a parameter of the development. *)

From Stdlib Require Import QArith ZArith Lia Lqa.
From stdpp Require Import gmap strings list fin_maps.

Local Open Scope string_scope.
Local Open Scope list_scope.

(** ** Data model *)

(** A profile entry [{"min": ..., "max": ...}]; [max] may be [float('inf')]. *)
Inductive bound := Finite (q : Q) | Infinity.

Record NutrientBounds := { b_min : Q; b_max : bound }.

Abbreviation Profile := (gmap string NutrientBounds).

(** One entry of [meals.json]. *)
Record Meal := {
  title : string;
  estimated_cost_usd : Q;
  calories : Q;
  macros : gmap string Q;
  micros : gmap string Q;
  user_rating : option Q
}.

(** The [MealOptimizer] object: the attributes set by [__init__]. *)
Record MealOptimizer := {
  meals : list Meal;
  nutritional_profiles : gmap string Profile;
  days_of_week : list string;
  meals_per_day : nat
}.

Definition num_meals (self : MealOptimizer) : nat := length (meals self).
Definition num_days (self : MealOptimizer) : nat := length (days_of_week self).
Definition total_meal_slots (self : MealOptimizer) : nat :=
  num_days self * meals_per_day self.

Definition macro_nutrients : list string := ["protein"; "carbs"; "fat"].
Definition micro_nutrients : list string :=
  ["vitamin_a_mcg"; "vitamin_c_mg"; "vitamin_d_mcg"; "vitamin_e_mg";
   "calcium_mg"; "iron_mg"; "magnesium_mg"; "potassium_mg";
   "sodium_mg"; "zinc_mg"].
Definition all_nutrients : list string := macro_nutrients ++ micro_nutrients.

(** ** Exceptions *)

Inductive exn :=
| ValueError (msg : string)
| KeyError (key : string)
| IndexError.

Inductive outcome (A : Type) :=
| Ok (a : A)
| Raise (e : exn).
Arguments Ok {A} a.
Arguments Raise {A} e.

Definition obind {A B} (c : outcome A) (k : A -> outcome B) : outcome B :=
  match c with
  | Ok a => k a
  | Raise e => Raise e
  end.

Notation "'try!' x ':=' c 'in' k" := (obind c (fun x => k))
  (at level 10, x name, c at level 100, k at level 200).

(** [d[key]] on a dict: [KeyError] when the key is missing. *)
Definition getitem {V} (d : gmap string V) (key : string) : outcome V :=
  match d !! key with
  | Some v => Ok v
  | None => Raise (KeyError key)
  end.

(** A list comprehension whose body may raise. *)
Fixpoint omap_list {A B} (f : A -> outcome B) (l : list A) : outcome (list B) :=
  match l with
  | [] => Ok []
  | a :: l' =>
      try! b := f a in
      try! bs := omap_list f l' in
      Ok (b :: bs)
  end.

(** ** [_get_nutrient_value] and [_map_profile_nutrient] *)

Definition _get_nutrient_value (meal : Meal) (nutrient : string) : outcome Q :=
  if bool_decide (nutrient ∈ ["protein"; "carbs"; "fat"]) then
    getitem (macros meal) nutrient
  else if bool_decide (nutrient ∈ micro_nutrients) then
    getitem (micros meal) nutrient
  else if bool_decide (nutrient = "calories") then
    Ok (calories meal)
  else Raise (ValueError ("Unknown nutrient: " +:+ nutrient)).

Definition mapping : gmap string string :=
  <["vitaminA" := "vitamin_a_mcg"]>
  (<["vitaminC" := "vitamin_c_mg"]>
  (<["vitaminD" := "vitamin_d_mcg"]>
  (<["vitaminE" := "vitamin_e_mg"]>
  (<["calcium" := "calcium_mg"]>
  (<["iron" := "iron_mg"]>
  (<["magnesium" := "magnesium_mg"]>
  (<["potassium" := "potassium_mg"]>
  (<["sodium" := "sodium_mg"]>
  (<["zinc" := "zinc_mg"]> ∅))))))))).

(** [mapping.get(profile_nutrient, profile_nutrient)] *)
Definition _map_profile_nutrient (profile_nutrient : string) : string :=
  default profile_nutrient (mapping !! profile_nutrient).


(** ** The PuLP objects the optimiser builds *)

(** The decision variable [x[i, j]] (PuLP name [x_i_j], category Binary) is
    identified with its index pair. *)
Definition LpVar : Type := nat * nat.

(** What [lpSum] makes of a list of terms [coef * x[i, j]]; a bare [x[i, j]]
    is the term with coefficient 1. *)
Definition LpAffineExpression : Type := list (Q * LpVar).

Inductive LpConstraintSense := LpConstraintLE | LpConstraintGE | LpConstraintEQ.

Record LpConstraint := {
  lhs : LpAffineExpression;
  csense : LpConstraintSense;
  rhs : Q
}.

Inductive LpSense := LpMinimize | LpMaximize.

Record LpProblem := {
  pname : string;
  psense : LpSense;
  pobjective : LpAffineExpression;
  constraints : list LpConstraint
}.

Inductive LpStatusCode :=
| LpStatusNotSolved
| LpStatusOptimal
| LpStatusInfeasible
| LpStatusUnbounded
| LpStatusUndefined.

#[global] Instance LpStatusCode_eq_dec : EqDecision LpStatusCode.
Proof. solve_decision. Defined.

(** PuLP's [LpStatus] table. *)
Definition LpStatus (c : LpStatusCode) : string :=
  match c with
  | LpStatusNotSolved => "Not Solved"
  | LpStatusOptimal => "Optimal"
  | LpStatusInfeasible => "Infeasible"
  | LpStatusUnbounded => "Unbounded"
  | LpStatusUndefined => "Undefined"
  end.

(** [x[i, j].varValue] after a solve: a number, or [None]. *)
Definition VarValues : Type := LpVar -> option Q.

(** The LP backend: given how many solves came before, the [solver]
    argument of [problem.solve] ([None] is PuLP's default) and the problem,
    it answers with a status and the variables' values. *)
Definition Backend : Type :=
  nat -> option string -> LpProblem -> LpStatusCode * VarValues.

Definition Qltb (a b : Q) : bool := negb (Qle_bool b a).

(** ** Building the model (the body of [solve] up to [problem.solve()]) *)

(** [for i in range(self.num_meals)] together with [self.meals[i]]:
    [num_meals] is [len(self.meals)], so the loop enumerates the catalog. *)
Definition indexed_meals (self : MealOptimizer) : list (nat * Meal) :=
  zip (seq 0 (num_meals self)) (meals self).

Definition slots (self : MealOptimizer) : list nat :=
  seq 0 (total_meal_slots self).

Definition objective_expr (self : MealOptimizer) (objective : string)
  : LpAffineExpression :=
  '(i, m) ← indexed_meals self;
  j ← slots self;
  if bool_decide (objective = "minimize_cost") then
    [(estimated_cost_usd m, (i, j))]
  else if bool_decide (objective = "maximize_rating") then
    [(default 5%Q (user_rating m), (i, j))]
  else [].

(** Constraint 1 for meal [i]. *)
Definition cap_constraint (self : MealOptimizer) (max_meals_per_meal : Z)
    (i : nat) : LpConstraint :=
  {| lhs := (λ j, (1%Q, (i, j))) <$> slots self;
     csense := LpConstraintLE;
     rhs := inject_Z max_meals_per_meal |}.

Definition cap_constraints (self : MealOptimizer) (max_meals_per_meal : Z)
  : list LpConstraint :=
  cap_constraint self max_meals_per_meal <$> seq 0 (num_meals self).

Definition day_vars (self : MealOptimizer) (day_idx : nat) : list LpVar :=
  i ← seq 0 (num_meals self);
  meal_slot ← seq 0 (meals_per_day self);
  [(i, day_idx * meals_per_day self + meal_slot)].

(** Constraint 2 for day [day_idx]. *)
Definition day_constraint (self : MealOptimizer) (day_idx : nat)
  : LpConstraint :=
  {| lhs := (λ v, (1%Q, v)) <$> day_vars self day_idx;
     csense := LpConstraintEQ;
     rhs := 1%Q |}.

Definition day_constraints (self : MealOptimizer) : list LpConstraint :=
  day_constraint self <$> seq 0 (num_days self).

(** [total_meals = 7  # Fixed number of meals per week] *)
Definition total_meals : Q := 7%Q.

Definition nutrients_to_process : list string := "calories" :: all_nutrients.

(** The list [nutrient_expr] of lines 239-243 and 251-255. *)
Definition nutrient_expr (self : MealOptimizer) (nutrient : string)
  : outcome LpAffineExpression :=
  try! rows := omap_list (λ '(i, m),
      try! nutrient_value := _get_nutrient_value m nutrient in
      Ok ((λ j, (nutrient_value, (i, j))) <$> slots self))
    (indexed_meals self) in
  Ok (concat rows).

Definition lower_bound (e : LpAffineExpression) (min_val : Q) : LpConstraint :=
  {| lhs := e; csense := LpConstraintGE; rhs := (min_val * total_meals)%Q |}.

Definition upper_bound (e : LpAffineExpression) (max_val : Q) : LpConstraint :=
  {| lhs := e; csense := LpConstraintLE; rhs := (max_val * total_meals)%Q |}.

(** One iteration of the loop over [nutrients_to_process]: the constraints
    it adds to the problem. *)
Definition nutrient_block (self : MealOptimizer) (profile : Profile)
    (nutrient : string) : outcome (list LpConstraint) :=
  let profile_nutrient := _map_profile_nutrient nutrient in
  match profile !! profile_nutrient with
  | Some b =>
      let min_val := b_min b in
      let max_val := b_max b in
      try! lower :=
        (if Qltb 0 min_val then
           try! e := nutrient_expr self nutrient in
           Ok [lower_bound e min_val]
         else Ok []) in
      try! upper :=
        (match max_val with
         | Finite q =>
             try! e := nutrient_expr self nutrient in
             Ok [upper_bound e q]
         | Infinity => Ok []
         end) in
      Ok (lower ++ upper)
  | None => Ok []
  end.

Definition nutrient_constraints (self : MealOptimizer) (profile : Profile)
  : outcome (list LpConstraint) :=
  try! blocks := omap_list (nutrient_block self profile) nutrients_to_process in
  Ok (concat blocks).

Definition total_meals_expr (self : MealOptimizer) : LpAffineExpression :=
  i ← seq 0 (num_meals self);
  j ← slots self;
  [(1%Q, (i, j))].

(** Constraint 4. *)
Definition total_constraint (self : MealOptimizer) : LpConstraint :=
  {| lhs := total_meals_expr self; csense := LpConstraintEQ; rhs := 7%Q |}.

(** The problem as it stands when [problem.solve()] is reached. *)
Definition build_problem (self : MealOptimizer) (profile : Profile)
    (max_meals_per_meal : Z) (objective : string) (sense : LpSense)
  : outcome LpProblem :=
  try! c3 := nutrient_constraints self profile in
  Ok {| pname := "MealPlanning";
        psense := sense;
        pobjective := objective_expr self objective;
        constraints :=
          cap_constraints self max_meals_per_meal
          ++ day_constraints self
          ++ c3
          ++ [total_constraint self] |}.

(** ** Solution extraction *)

(** A selection entry: the dict with keys [meal], [day], [meal_slot], [cost]. *)
Record MealInfo := {
  meal : Meal;
  day : string;
  meal_slot : nat;
  cost : Q
}.

Record NutrientSummary := { total : Q; average : Q }.

(** The dict [_extract_solution] returns. *)
Record Solution := {
  profile_used : string;
  selected_meals : list MealInfo;
  meal_schedule : gmap string (list MealInfo);
  nutritional_summary : gmap string NutrientSummary;
  total_cost : Q;
  num_meals_selected : nat
}.

(** [l[i]] on a list: [IndexError] out of range. *)
Definition list_getitem {A} (l : list A) (i : nat) : outcome A :=
  match l !! i with
  | Some a => Ok a
  | None => Raise IndexError
  end.

(** The test of line 325: [varValue is not None and varValue > 0.5]. *)
Definition is_selected (x : VarValues) (v : LpVar) : bool :=
  match x v with
  | Some q => Qltb (1 # 2) q
  | None => false
  end.

(** The entry built in lines 326-335 for the pair [(i, j)]. *)
Definition meal_info (self : MealOptimizer) (i : nat) (m : Meal) (j : nat)
  : outcome MealInfo :=
  let day_idx := j / meals_per_day self in
  let meal_idx := j mod meals_per_day self in
  try! d := list_getitem (days_of_week self) day_idx in
  Ok {| meal := m;
        day := d;
        meal_slot := meal_idx + 1;
        cost := estimated_cost_usd m |}.

(** The loop of lines 322-338: the list [selected_meals]. *)
Definition extract_selected (self : MealOptimizer) (x : VarValues)
  : outcome (list MealInfo) :=
  try! rows := omap_list (λ '(i, m),
      try! row := omap_list (λ j,
          if is_selected x (i, j) then
            try! info := meal_info self i m j in Ok [info]
          else Ok [])
        (slots self) in
      Ok (concat row))
    (indexed_meals self) in
  Ok (concat rows).

Definition Qsum (l : list Q) : Q := foldl Qplus 0%Q l.

Definition _calculate_nutritional_summary (selected : list MealInfo)
  : outcome (gmap string NutrientSummary) :=
  match selected with
  | [] => Ok ∅
  | _ =>
      let n := inject_Z (Z.of_nat (length selected)) in
      try! rows := omap_list (λ nutrient,
          try! vals := omap_list (λ info, _get_nutrient_value (meal info) nutrient)
                         selected in
          let t := Qsum vals in
          Ok (nutrient, {| total := t; average := (t / n)%Q |}))
        nutrients_to_process in
      Ok (foldl (λ summary '(k, v), <[k := v]> summary) ∅ rows)
  end.

(** [meal_schedule]: one empty list per day name, then each entry appended
    under its day, in the order the entries are produced. *)
Definition schedule_of (self : MealOptimizer) (selected : list MealInfo)
  : gmap string (list MealInfo) :=
  foldl (λ sch info, alter (λ l, l ++ [info]) (day info) sch)
        (foldl (λ sch d, <[d := []]> sch) ∅ (days_of_week self))
        selected.

Definition _extract_solution (self : MealOptimizer) (x : VarValues)
    (profile_name : string) : outcome Solution :=
  try! selected := extract_selected self x in
  try! summary := _calculate_nutritional_summary selected in
  Ok {| profile_used := profile_name;
        selected_meals := selected;
        meal_schedule := schedule_of self selected;
        nutritional_summary := summary;
        total_cost := Qsum (cost <$> selected);
        num_meals_selected := length selected |}.

(** PuLP's [value(problem.objective)]: [None] as soon as a variable has no
    value. *)
Fixpoint value (e : LpAffineExpression) (x : VarValues) : option Q :=
  match e with
  | [] => Some 0%Q
  | (c, v) :: e' =>
      match x v, value e' x with
      | Some q, Some s => Some (c * q + s)%Q
      | _, _ => None
      end
  end.

(** ** The world [solve] runs in *)

(** The optimiser object (whose profile registry callers mutate), the
    decision variables created so far, and the solves requested so far,
    each with its [solver] argument. *)
Record World := {
  optimizer : MealOptimizer;
  lp_variables : list LpVar;
  solver_calls : list (option string * LpProblem)
}.

(** Computations that read and write the world and may raise; the world
    reached when an exception is raised is kept. *)
Definition M (A : Type) : Type := World -> outcome A * World.

Definition ret {A} (a : A) : M A := λ w, (Ok a, w).
Definition raise {A} (e : exn) : M A := λ w, (Raise e, w).
Definition bind {A B} (c : M A) (k : A -> M B) : M B :=
  λ w, match c w with
       | (Ok a, w') => k a w'
       | (Raise e, w') => (Raise e, w')
       end.
Definition lift {A} (c : outcome A) : M A := λ w, (c, w).
Definition get_self : M MealOptimizer := λ w, (Ok (optimizer w), w).

Notation "'let!' x ':=' c 'in' k" := (bind c (fun x => k))
  (at level 10, x name, c at level 100, k at level 200).

Fixpoint mfor {A} (l : list A) (body : A -> M unit) : M unit :=
  match l with
  | [] => ret tt
  | a :: l' => let! _u := body a in mfor l' body
  end.

Definition add_vars (w : World) (vs : list LpVar) : World :=
  {| optimizer := optimizer w;
     lp_variables := lp_variables w ++ vs;
     solver_calls := solver_calls w |}.

Definition add_call (w : World) (c : option string * LpProblem) : World :=
  {| optimizer := optimizer w;
     lp_variables := lp_variables w;
     solver_calls := solver_calls w ++ [c] |}.

Definition with_registry (w : World) (reg : gmap string Profile) : World :=
  {| optimizer :=
       {| meals := meals (optimizer w);
          nutritional_profiles := reg;
          days_of_week := days_of_week (optimizer w);
          meals_per_day := meals_per_day (optimizer w) |};
     lp_variables := lp_variables w;
     solver_calls := solver_calls w |}.

(** [LpVariable(f'x_{i}_{j}', cat='Binary')] *)
Definition LpVariable (v : LpVar) : M unit :=
  λ w, (Ok tt, add_vars w [v]).

(** Lines 180-183. *)
Definition create_variables (self : MealOptimizer) : M unit :=
  mfor (seq 0 (num_meals self)) (λ i,
    mfor (slots self) (λ j, LpVariable (i, j))).

(** [self.nutritional_profiles[key] = profile] *)
Definition set_profile (key : string) (profile : Profile) : M unit :=
  λ w, (Ok tt,
        with_registry w (<[key := profile]> (nutritional_profiles (optimizer w)))).

(** [del self.nutritional_profiles[key]]: [KeyError] when absent. *)
Definition del_profile (key : string) : M unit :=
  λ w, match nutritional_profiles (optimizer w) !! key with
       | None => (Raise (KeyError key), w)
       | Some _ =>
           (Ok tt,
            with_registry w (delete key (nutritional_profiles (optimizer w))))
       end.

(** What [solve] returns: the extracted solution with [status] and
    [objective_value] added, or the three-key failure dict (whose
    [objective_value] is [None]). *)
Inductive SolveResult :=
| Solved (solution : Solution) (status : string) (objective_value : option Q)
| NoSolution (status : string) (message : string).

Definition result_status (r : SolveResult) : string :=
  match r with
  | Solved _ st _ => st
  | NoSolution st _ => st
  end.

Definition no_solution (status : string) : SolveResult :=
  NoSolution "INFEASIBLE"
    ("No feasible solution found. Status: " +:+ status
       +:+ ". Try relaxing constraints.").

Section Solve.
Context (backend : Backend).

(** [problem.solve(solver)]; returns the status code and the values now
    held by the variables. *)
Definition problem_solve (solver : option string) (problem : LpProblem)
  : M (LpStatusCode * VarValues) :=
  λ w, (Ok (backend (length (solver_calls w)) solver problem),
        add_call w (solver, problem)).

Definition solve (profile_name : string) (max_meals_per_meal : Z)
    (objective : string) : M SolveResult :=
  let! self := get_self in
  match nutritional_profiles self !! profile_name with
  | None => raise (ValueError ("Unknown profile: " +:+ profile_name))
  | Some profile =>
      let! sense :=
        (if bool_decide (objective = "minimize_cost") then ret LpMinimize
         else if bool_decide (objective = "maximize_rating") then ret LpMaximize
         else raise (ValueError ("Unknown objective: " +:+ objective))) in
      let! _u := create_variables self in
      let! problem :=
        lift (build_problem self profile max_meals_per_meal objective sense) in
      let! r := problem_solve None problem in
      let status := LpStatus r.1 in
      if bool_decide (status = "Optimal") then
        let! solution := lift (_extract_solution self r.2 profile_name) in
        ret (Solved solution "OPTIMAL" (value (pobjective problem) r.2))
      else if bool_decide (status = "Not Solved") then
        let! r := problem_solve None problem in
        let status := LpStatus r.1 in
        if bool_decide (status = "Optimal") then
          let! solution := lift (_extract_solution self r.2 profile_name) in
          ret (Solved solution "FEASIBLE" (value (pobjective problem) r.2))
        else ret (no_solution status)
      else ret (no_solution status)
  end.

(** ** [run_optimization] of [app.py] *)

Definition bounds_from (requirements : gmap string Q)
    (min_key : string) (min_default : Q)
    (max_key : string) (max_default : Q) : NutrientBounds :=
  {| b_min := default min_default (requirements !! min_key);
     b_max := Finite (default max_default (requirements !! max_key)) |}.

Definition custom_profile (requirements : gmap string Q) : Profile :=
  let b := bounds_from requirements in
  <["calories" := b "minCalories" 300%Q "maxCalories" 700%Q]>
  (<["protein" := b "minProtein" 20%Q "maxProtein" 35%Q]>
  (<["carbs" := b "minCarbs" 30%Q "maxCarbs" 90%Q]>
  (<["fat" := b "minFat" 10%Q "maxFat" 25%Q]>
  (<["vitaminA" := b "minVitaminA" 150%Q "maxVitaminA" 300%Q]>
  (<["vitaminC" := b "minVitaminC" 15%Q "maxVitaminC" 30%Q]>
  (<["vitaminD" := b "minVitaminD" 3%Q "maxVitaminD" 8%Q]>
  (<["vitaminE" := b "minVitaminE" 3%Q "maxVitaminE" 6%Q]>
  (<["calcium" := b "minCalcium" 200%Q "maxCalcium" 400%Q]>
  (<["iron" := b "minIron" 2%Q "maxIron" 4%Q]>
  (<["magnesium" := b "minMagnesium" 60%Q "maxMagnesium" 120%Q]>
  (<["potassium" := b "minPotassium" 600%Q "maxPotassium" 1000%Q]>
  (<["sodium" := b "minSodium" 200%Q "maxSodium" 400%Q]> ∅)))))))))))).

Definition run_optimization (requirements : gmap string Q)
    (objective : string) (meal_frequency : Z) : M SolveResult :=
  let! _u := set_profile "custom" (custom_profile requirements) in
  let! result := solve "custom" meal_frequency objective in
  let! _v := del_profile "custom" in
  ret result.
End Solve.

(** ** What a solved model means *)

(** A constraint holds under the variables' values (PuLP's reading of
    [<=], [>=] and [==] between an affine expression and a number). *)
Definition holdsb (x : VarValues) (c : LpConstraint) : bool :=
  match value (lhs c) x with
  | Some s =>
      match csense c with
      | LpConstraintLE => Qle_bool s (rhs c)
      | LpConstraintGE => Qle_bool (rhs c) s
      | LpConstraintEQ => Qeq_bool s (rhs c)
      end
  | None => false
  end.

(** A variable of category Binary holds 0 or 1. *)
Definition binaryb (x : VarValues) (v : LpVar) : bool :=
  match x v with
  | Some q => Qeq_bool q 0 || Qeq_bool q 1
  | None => false
  end.

Definition feasibleb (x : VarValues) (p : LpProblem) : bool :=
  forallb (λ c, forallb (λ t, binaryb x t.2) (lhs c) && holdsb x c)
          (constraints p).

(** The contract of the LP backend: status Optimal comes with values that
    are binary and satisfy every constraint of the problem. *)
Definition sound (backend : Backend) : Prop :=
  ∀ n solver p,
    (backend n solver p).1 = LpStatusOptimal ->
    feasibleb (backend n solver p).2 p = true.

(** All index pairs, in the order the extraction loop visits them. *)
Definition all_pairs (self : MealOptimizer) : list LpVar :=
  i ← seq 0 (num_meals self);
  j ← slots self;
  [(i, j)].

(** The pairs whose value exceeds 0.5. *)
Definition selected_pairs (self : MealOptimizer) (x : VarValues) : list LpVar :=
  filter (λ v, is_selected x v) (all_pairs self).

(** The entry [info] is the one lines 326-335 build for the pair [v]. *)
Definition entry_of (self : MealOptimizer) (v : LpVar) (info : MealInfo) : Prop :=
  meals self !! v.1 = Some (meal info)
  ∧ days_of_week self !! (v.2 / meals_per_day self) = Some (day info)
  ∧ meal_slot info = v.2 mod meals_per_day self + 1
  ∧ cost info = estimated_cost_usd (meal info).

(** The variables of meal [i], one per slot. *)
Definition row_of (self : MealOptimizer) (i : nat) : list LpVar :=
  (λ j, (i, j)) <$> slots self.

(** How often meal [i] occurs among a list of pairs. *)
Definition times_selected (i : nat) (pairs : list LpVar) : nat :=
  length (filter (λ v, v.1 = i) pairs).

(** ** Sample data *)

Definition sample_micros (a : Q) : gmap string Q :=
  list_to_map ((λ k, (k, a)) <$> micro_nutrients).

Definition sample_meal (name : string) (price prot : Q) : Meal :=
  {| title := name;
     estimated_cost_usd := price;
     calories := 500%Q;
     macros := list_to_map [("protein", prot); ("carbs", 60%Q); ("fat", 15%Q)];
     micros := sample_micros 100%Q;
     user_rating := None |}.

Definition sample_meals : list Meal :=
  [sample_meal "oats" 2%Q 20%Q; sample_meal "rice" 5%Q 30%Q;
   sample_meal "fish" 8%Q 25%Q].

Definition protein_profile : Profile :=
  {[ "protein" := {| b_min := 20%Q; b_max := Finite 35%Q |} ]}.

(** A profile that names a vitamin the way [app.py] does. *)
Definition vitamin_profile : Profile :=
  {[ "vitaminA" := {| b_min := 150%Q; b_max := Finite 300%Q |} ]}.

Definition sample_registry : gmap string Profile :=
  <["healthy-adult" := protein_profile]> (<["vitamins" := vitamin_profile]> ∅).

Definition week : list string :=
  ["Monday"; "Tuesday"; "Wednesday"; "Thursday"; "Friday"; "Saturday"; "Sunday"].

Definition weekly : MealOptimizer :=
  {| meals := sample_meals; nutritional_profiles := sample_registry;
     days_of_week := week; meals_per_day := 1 |}.

Definition two_days : MealOptimizer :=
  {| meals := sample_meals; nutritional_profiles := sample_registry;
     days_of_week := ["Monday"; "Tuesday"]; meals_per_day := 1 |}.

Definition no_meals : MealOptimizer :=
  {| meals := []; nutritional_profiles := sample_registry;
     days_of_week := week; meals_per_day := 1 |}.

Definition fresh (self : MealOptimizer) : World :=
  {| optimizer := self; lp_variables := []; solver_calls := [] |}.

(** A backend that answers the [n]-th solve with the [n]-th listed status. *)
Definition scripted (answers : list LpStatusCode) (x : VarValues) : Backend :=
  λ n _ _, (nth n answers LpStatusUndefined, x).

(** A backend that proposes [x] and reports Optimal exactly when [x] is
    feasible for the problem it is given. *)
Definition proposing (x : VarValues) : Backend :=
  λ _ _ p, if feasibleb x p then (LpStatusOptimal, x) else (LpStatusInfeasible, x).

Definition unset : VarValues := λ _, None.

(** Oats on Monday to Wednesday, rice on Thursday to Saturday, fish on
    Sunday. *)
Definition sample_plan : VarValues :=
  λ '(i, j),
    if bool_decide (i = 0 ∧ j < 3) then Some 1%Q
    else if bool_decide (i = 1 ∧ 3 <= j < 6)%nat then Some 1%Q
    else if bool_decide (i = 2 ∧ j = 6) then Some 1%Q
    else Some 0%Q.

(** The sense [solve] gives the problem for each objective it accepts
    (lines 170-175). *)
Inductive accepted : string -> LpSense -> Prop :=
| accepted_cost : accepted "minimize_cost" LpMinimize
| accepted_rating : accepted "maximize_rating" LpMaximize.

(** The problem [solve] builds for the seven-day sample week. *)
Definition sample_problem : LpProblem :=
  match build_problem weekly protein_profile 3 "minimize_cost" LpMinimize with
  | Ok p => p
  | Raise _ =>
      {| pname := ""; psense := LpMinimize; pobjective := []; constraints := [] |}
  end.

(** ** The rest of [app.py] *)

(** A fold whose step may raise. *)
Fixpoint ofoldl {A B} (f : B -> A -> outcome B) (b : B) (l : list A) : outcome B :=
  match l with
  | [] => Ok b
  | a :: l' => try! b' := f b a in ofoldl f b' l'
  end.

(** The seven names [convert_optimization_to_meal_plan] and
    [generate_weekly_meal_plan] spell out. *)
Definition plan_days : list string :=
  ["Monday"; "Tuesday"; "Wednesday"; "Thursday"; "Friday"; "Saturday"; "Sunday"].

Definition empty_plan : gmap string (list Meal) :=
  foldl (λ plan d, <[d := []]> plan) ∅ plan_days.

(** [meal_plan[day].append(meal)]: [KeyError] when [day] is no key. *)
Definition plan_append (plan : gmap string (list Meal)) (info : MealInfo)
  : outcome (gmap string (list Meal)) :=
  try! l := getitem plan (day info) in
  Ok (<[day info := l ++ [meal info]]> plan).

(** [optimization_result['selected_meals']]: only the solution dict has
    this key. *)
Definition result_selected_meals (r : SolveResult) : outcome (list MealInfo) :=
  match r with
  | Solved solution _ _ => Ok (selected_meals solution)
  | NoSolution _ _ => Raise (KeyError "selected_meals")
  end.

Definition convert_optimization_to_meal_plan (optimization_result : SolveResult)
  : outcome (gmap string (list Meal)) :=
  try! selected := result_selected_meals optimization_result in
  ofoldl plan_append empty_plan selected.

(** One round of the loop of [filter_meals_by_requirements]: does adding
    the meal exceed a maximum?  Every meal record has its [calories],
    [macros] and [micros]; what may be missing is a key of
    [current_nutrition]. *)
Definition would_exceed (requirements current_nutrition : gmap string Q)
    (m : Meal) : outcome bool :=
  let limit key := default 9999%Q (requirements !! key) in
  try! c := getitem current_nutrition "calories" in
  let e1 := Qltb (limit "maxCalories") (c + calories m) in
  try! p := getitem current_nutrition "protein" in
  let e2 := Qltb (limit "maxProtein") (p + default 0%Q (macros m !! "protein")) in
  try! cb := getitem current_nutrition "carbs" in
  let e3 := Qltb (limit "maxCarbs") (cb + default 0%Q (macros m !! "carbs")) in
  try! f := getitem current_nutrition "fat" in
  let e4 := Qltb (limit "maxFat") (f + default 0%Q (macros m !! "fat")) in
  try! s := getitem current_nutrition "sodium_mg" in
  let e5 := Qltb (limit "maxSodium") (s + default 0%Q (micros m !! "sodium_mg")) in
  Ok (e1 || e2 || e3 || e4 || e5).

Definition filter_meals_by_requirements (meals : list Meal)
    (requirements current_nutrition : gmap string Q) (meal_type : string)
  : outcome (list Meal) :=
  try! rows := omap_list (λ m,
      try! e := would_exceed requirements current_nutrition m in
      Ok (if e then [] else [m])) meals in
  Ok (concat rows).

Section Sampling.
(** [random.sample(population, k)], told apart by the day it is drawn for. *)
Context (sample : string -> list Meal -> nat -> list Meal).

Definition generate_weekly_meal_plan (meals : list Meal)
    (requirements : gmap string Q) : outcome (gmap string (list Meal)) :=
  ofoldl (λ meal_plan d,
      try! suitable_meals :=
        filter_meals_by_requirements meals requirements ∅ "dinner" in
      let selected_meals :=
        match suitable_meals with
        | _ :: _ => sample d suitable_meals (Nat.min 2 (length suitable_meals))
        | [] => sample d meals (Nat.min 2 (length meals))
        end in
      Ok (<[d := selected_meals]> meal_plan))
    ∅ plan_days.
End Sampling.

(** *** The rating routes; [data/meals.json] is the state *)

(** The file is absent ([None]) or holds a list of meals. *)
Definition MealsFile : Type := option (list Meal).

(** [load_meal_data]: the empty list when the file is not found. *)
Definition load_meal_data (file : MealsFile) : list Meal := default [] file.

Definition set_rating (m : Meal) (rating : Q) : Meal :=
  {| title := title m;
     estimated_cost_usd := estimated_cost_usd m;
     calories := calories m;
     macros := macros m;
     micros := micros m;
     user_rating := Some rating |}.

(** The loop of lines 335-339: rate the first meal with that title;
    [None] when no meal has it. *)
Fixpoint rate_first (meals : list Meal) (meal_title : string) (rating : Q)
  : option (list Meal) :=
  match meals with
  | [] => None
  | m :: rest =>
      if bool_decide (title m = meal_title) then Some (set_rating m rating :: rest)
      else cons m <$> rate_first rest meal_title rating
  end.

(** What a rating route answers: the HTTP code with the error text, or
    the success forms (code 200). *)
Inductive RatingResponse :=
| RatingError (code : nat) (error : string)
| RatingUpdated (rating : Q)
| RatingsReset
| MealsListed (meals : list Meal).

(** [update_rating], after [request.get_json()]: the response and the
    file as it is left. *)
Definition update_rating (meal_title : option string) (rating : option Q)
    (file : MealsFile) : RatingResponse * MealsFile :=
  match meal_title, rating with
  | Some t, Some r =>
      if bool_decide (t = "") then
        (RatingError 400 "Missing meal_title or rating", file)
      else if negb (Qle_bool 1 r && Qle_bool r 10) then
        (RatingError 400 "Rating must be between 1 and 10", file)
      else
        match rate_first (load_meal_data file) t r with
        | None => (RatingError 404 "Meal not found", file)
        | Some meals' => (RatingUpdated r, Some meals')
        end
  | _, _ => (RatingError 400 "Missing meal_title or rating", file)
  end.

Definition get_meals_with_ratings (file : MealsFile) : RatingResponse * MealsFile :=
  (MealsListed ((λ m, match user_rating m with
                      | Some _ => m
                      | None => set_rating m 5%Q
                      end) <$> load_meal_data file),
   file).

Definition reset_ratings (file : MealsFile) : RatingResponse * MealsFile :=
  (RatingsReset, Some ((λ m, set_rating m 5%Q) <$> load_meal_data file)).

(** *** The route [/generate_meal_plan] *)

(** The JSON body of the request; each key may be absent. *)
Record PlanRequest := {
  req_requirements : option (gmap string Q);
  req_objective : option string;
  req_mealFrequency : option Z
}.

Inductive PlanResponse :=
| PlanOk (meal_plan : gmap string (list Meal)) (status : string)
         (total_cost : Q) (num_meals : nat)
         (nutritional_summary : gmap string NutrientSummary)
| PlanFailed (error : string)
| PlanError (error : string).

(** [str(e)] *)
Definition str_exn (e : exn) : string :=
  match e with
  | ValueError msg => msg
  | KeyError key => "'" +:+ key +:+ "'"
  | IndexError => "list index out of range"
  end.

Definition http_code (r : PlanResponse) : nat :=
  match r with
  | PlanOk _ _ _ _ _ => 200
  | PlanFailed _ => 400
  | PlanError _ => 500
  end.

Section Route.
Context (backend : Backend).

(** The body of the route once [MealOptimizer()] has loaded [optimizer]
    from its files. *)
Definition generate_meal_plan (optimizer : MealOptimizer) (data : PlanRequest)
  : PlanResponse :=
  let requirements := default ∅ (req_requirements data) in
  let objective := default "minimize_cost" (req_objective data) in
  let meal_frequency := default 2%Z (req_mealFrequency data) in
  match (run_optimization backend requirements objective meal_frequency
           (fresh optimizer)).1 with
  | Raise e => PlanError (str_exn e)
  | Ok optimization_result =>
      if bool_decide (result_status optimization_result ∈ ["OPTIMAL"; "FEASIBLE"])
      then
        match convert_optimization_to_meal_plan optimization_result with
        | Raise e => PlanError (str_exn e)
        | Ok meal_plan =>
            match optimization_result with
            | Solved solution st _ =>
                PlanOk meal_plan st (total_cost solution)
                       (num_meals_selected solution)
                       (nutritional_summary solution)
            | NoSolution _ _ => PlanError (str_exn (KeyError "total_cost"))
            end
        end
      else
        PlanFailed ("Optimization failed: " +:+
                    match optimization_result with
                    | NoSolution _ message => message
                    | Solved _ _ _ => "No feasible solution found"
                    end)
  end.
End Route.

(** ** Catalogs every nutrient can be read from *)




(** The values [x] reports the sample plan with. *)
Definition sample_solution : Solution :=
  match _extract_solution weekly sample_plan "healthy-adult" with
  | Ok s => s
  | Raise _ =>
      {| profile_used := ""; selected_meals := []; meal_schedule := ∅;
         nutritional_summary := ∅; total_cost := 0%Q; num_meals_selected := 0 |}
  end.

(** * Properties *)

(** ** The nutrient-name table *)

(** Every value stored in the table is one of the ten catalog keys. *)
Lemma mapping_image (s v : string) :
  mapping !! s = Some v -> v ∈ micro_nutrients.
Proof.
  unfold mapping, micro_nutrients. intros H.
  repeat (apply lookup_insert_Some in H as [[_ <-]|[_ H]];
          [ apply list_elem_of_In; simpl; tauto | ]).
  rewrite lookup_empty in H. discriminate.
Qed.

(** No catalog key is itself a key of the table. *)
Lemma mapping_catalog_key (v : string) :
  v ∈ "calories" :: all_nutrients -> mapping !! v = None.
Proof.
  unfold all_nutrients, macro_nutrients, micro_nutrients. simpl.
  intros H. repeat (apply elem_of_cons in H as [->|H]; [ by vm_compute | ]).
  by apply elem_of_nil in H.
Qed.

(** C9: [_map_profile_nutrient] is idempotent: images of the table are not
    keys of the table, and names outside the table pass through unchanged. *)
Theorem map_profile_nutrient_idempotent (s : string) :
  _map_profile_nutrient (_map_profile_nutrient s) = _map_profile_nutrient s.
Proof.
  unfold _map_profile_nutrient at 2 3.
  destruct (mapping !! s) as [v|] eqn:Hs; simpl.
  - unfold _map_profile_nutrient.
    rewrite mapping_catalog_key; [ done | ].
    apply mapping_image in Hs. unfold all_nutrients.
    apply elem_of_cons. right. apply elem_of_app. by right.
  - unfold _map_profile_nutrient. by rewrite Hs.
Qed.

(** ** Running computations *)

Lemma bind_ok {A B} (c : M A) (k : A -> M B) w a w1 :
  c w = (Ok a, w1) -> bind c k w = k a w1.
Proof. intros H. unfold bind. by rewrite H. Qed.

Lemma bind_raise {A B} (c : M A) (k : A -> M B) w e w1 :
  c w = (Raise e, w1) -> bind c k w = (Raise e, w1).
Proof. intros H. unfold bind. by rewrite H. Qed.

Lemma add_vars_nil w : add_vars w [] = w.
Proof. destruct w. unfold add_vars. simpl. by rewrite app_nil_r. Qed.

Lemma add_vars_app w vs1 vs2 :
  add_vars (add_vars w vs1) vs2 = add_vars w (vs1 ++ vs2).
Proof. unfold add_vars. simpl. by rewrite app_assoc. Qed.

Lemma mfor_LpVariable (f : nat -> LpVar) (l : list nat) w :
  mfor l (λ j, LpVariable (f j)) w = (Ok tt, add_vars w (f <$> l)).
Proof.
  revert w. induction l as [|j l IH]; intros w; simpl.
  - unfold ret. by rewrite add_vars_nil.
  - unfold bind, LpVariable. rewrite IH. by rewrite add_vars_app.
Qed.

Lemma create_variables_run self w :
  create_variables self w = (Ok tt, add_vars w (all_pairs self)).
Proof.
  unfold create_variables, all_pairs.
  generalize (seq 0 (num_meals self)) as ms. intros ms. revert w.
  induction ms as [|i ms IH]; intros w; simpl.
  - unfold ret. by rewrite add_vars_nil.
  - unfold bind. rewrite mfor_LpVariable. rewrite IH.
    by rewrite add_vars_app.
Qed.

(** The two objective kinds [solve] accepts, and the problem sense of each. *)
Lemma objective_cases (obj : string) :
  (obj = "minimize_cost" ∨ obj = "maximize_rating")
  ∨ (obj ≠ "minimize_cost" ∧ obj ≠ "maximize_rating").
Proof.
  destruct (decide (obj = "minimize_cost")); [tauto|].
  destruct (decide (obj = "maximize_rating")); tauto.
Qed.

(** ** Unknown objectives *)

Lemma solve_unknown_profile backend pn m obj w :
  nutritional_profiles (optimizer w) !! pn = None ->
  solve backend pn m obj w = (Raise (ValueError ("Unknown profile: " +:+ pn)), w).
Proof. intros Hp. unfold solve, bind, get_self. by rewrite Hp. Qed.

Lemma solve_unknown_objective backend pn m obj w profile :
  nutritional_profiles (optimizer w) !! pn = Some profile ->
  obj ≠ "minimize_cost" -> obj ≠ "maximize_rating" ->
  solve backend pn m obj w = (Raise (ValueError ("Unknown objective: " +:+ obj)), w).
Proof.
  intros Hp H1 H2. unfold solve, bind, get_self. rewrite Hp.
  rewrite !bool_decide_eq_false_2 by done. done.
Qed.




(** ** The shape of a run of [solve] *)

Lemma LpStatus_optimal c : LpStatus c = "Optimal" ↔ c = LpStatusOptimal.
Proof. split; [by destruct c | by intros ->]. Qed.

Lemma LpStatus_not_solved c : LpStatus c = "Not Solved" ↔ c = LpStatusNotSolved.
Proof. split; [by destruct c | by intros ->]. Qed.

Lemma bind_lift_ret {A B} (c : outcome A) (f : A -> B) w :
  bind (lift c) (λ a, ret (f a)) w = (obind c (λ a, Ok (f a)), w).
Proof. unfold bind, lift, ret. by destruct c. Qed.

Lemma accepted_exists obj :
  obj = "minimize_cost" ∨ obj = "maximize_rating" -> ∃ sense, accepted obj sense.
Proof. intros [->| ->]; eexists; constructor. Qed.

(** Up to the first [problem.solve()]: the profile is found, the objective
    accepted, the variables created. *)
Lemma solve_prefix backend pn m obj w profile sense :
  nutritional_profiles (optimizer w) !! pn = Some profile ->
  accepted obj sense ->
  solve backend pn m obj w
  = bind (lift (build_problem (optimizer w) profile m obj sense)) (λ problem,
      bind (problem_solve backend None problem) (λ r,
        if bool_decide (LpStatus r.1 = "Optimal") then
          bind (lift (_extract_solution (optimizer w) r.2 pn)) (λ solution,
            ret (Solved solution "OPTIMAL" (value (pobjective problem) r.2)))
        else if bool_decide (LpStatus r.1 = "Not Solved") then
          bind (problem_solve backend None problem) (λ r,
            if bool_decide (LpStatus r.1 = "Optimal") then
              bind (lift (_extract_solution (optimizer w) r.2 pn)) (λ solution,
                ret (Solved solution "FEASIBLE" (value (pobjective problem) r.2)))
            else ret (no_solution (LpStatus r.1)))
        else ret (no_solution (LpStatus r.1))))
      (add_vars w (all_pairs (optimizer w))).
Proof.
  intros Hp Hacc. unfold solve at 1. unfold bind at 1, get_self. rewrite Hp.
  destruct Hacc; simpl; unfold bind at 1, ret at 1;
    unfold bind at 1; by rewrite create_variables_run.
Qed.

(** The run once the problem [p] is built. *)
Lemma solve_built backend pn m obj w profile sense p :
  nutritional_profiles (optimizer w) !! pn = Some profile ->
  accepted obj sense ->
  build_problem (optimizer w) profile m obj sense = Ok p ->
  let self := optimizer w in
  let w1 := add_call (add_vars w (all_pairs self)) (None, p) in
  let w2 := add_call w1 (None, p) in
  let r1 := backend (length (solver_calls w)) None p in
  let r2 := backend (S (length (solver_calls w))) None p in
  solve backend pn m obj w =
    if bool_decide (r1.1 = LpStatusOptimal) then
      (obind (_extract_solution self r1.2 pn) (λ solution,
         Ok (Solved solution "OPTIMAL" (value (pobjective p) r1.2))), w1)
    else if bool_decide (r1.1 = LpStatusNotSolved) then
      if bool_decide (r2.1 = LpStatusOptimal) then
        (obind (_extract_solution self r2.2 pn) (λ solution,
           Ok (Solved solution "FEASIBLE" (value (pobjective p) r2.2))), w2)
      else (Ok (no_solution (LpStatus r2.1)), w2)
    else (Ok (no_solution (LpStatus r1.1)), w1).
Proof.
  intros Hp Hacc Hb self w1 w2 r1 r2. subst self.
  rewrite (solve_prefix backend pn m obj w profile sense Hp Hacc).
  rewrite Hb. unfold bind at 1, lift at 1.
  unfold bind at 1, problem_solve at 1. simpl solver_calls. fold r1. fold w1.
  rewrite (bool_decide_ext _ _ (LpStatus_optimal r1.1)).
  rewrite (bool_decide_ext _ _ (LpStatus_not_solved r1.1)).
  case_bool_decide; [apply bind_lift_ret|].
  case_bool_decide; [|done].
  unfold bind at 1, problem_solve at 1.
  replace (length (solver_calls w1)) with (S (length (solver_calls w))).
  2:{ unfold w1. simpl. rewrite length_app. simpl. lia. }
  fold r2. fold w2.
  rewrite (bool_decide_ext _ _ (LpStatus_optimal r2.1)).
  case_bool_decide; [apply bind_lift_ret|done].
Qed.

(** When building the problem raises, so does [solve], after the variables
    were created and before any solve is requested. *)
Lemma solve_build_raises backend pn m obj w profile sense e :
  nutritional_profiles (optimizer w) !! pn = Some profile ->
  accepted obj sense ->
  build_problem (optimizer w) profile m obj sense = Raise e ->
  solve backend pn m obj w = (Raise e, add_vars w (all_pairs (optimizer w))).
Proof.
  intros Hp Hacc Hb.
  rewrite (solve_prefix backend pn m obj w profile sense Hp Hacc).
  rewrite Hb. done.
Qed.

(** Every solve that [solve] requests is a solve, with the default solver,
    of the problem [build_problem] returns. *)
Lemma solver_calls_built backend pn m obj w out w' :
  solve backend pn m obj w = (out, w') ->
  ∃ calls,
    solver_calls w' = solver_calls w ++ calls
    ∧ ∀ c, c ∈ calls ->
        ∃ profile sense p,
          nutritional_profiles (optimizer w) !! pn = Some profile
          ∧ accepted obj sense
          ∧ build_problem (optimizer w) profile m obj sense = Ok p
          ∧ c = (None, p).
Proof.
  destruct (nutritional_profiles (optimizer w) !! pn) as [profile|] eqn:Hp.
  2:{ rewrite solve_unknown_profile by done. intros [= _ <-].
      exists []. split; [by rewrite app_nil_r|]. by intros c ?%elem_of_nil. }
  destruct (objective_cases obj) as [[sense Hacc]%accepted_exists|[H1 H2]].
  2:{ rewrite (solve_unknown_objective _ _ _ _ _ profile) by done.
      intros [= _ <-].
      exists []. split; [by rewrite app_nil_r|]. by intros c ?%elem_of_nil. }
  destruct (build_problem (optimizer w) profile m obj sense) as [p|e] eqn:Hb.
  2:{ rewrite (solve_build_raises backend pn m obj w profile sense e Hp Hacc Hb).
      intros [= _ <-].
      exists []. split; [by rewrite app_nil_r|]. by intros c ?%elem_of_nil. }
  rewrite (solve_built backend pn m obj w profile sense p Hp Hacc Hb).
  assert (∀ c, c ∈ [(None, p); (None, p)] ->
               ∃ (profile0 : Profile) sense0 p0,
                 Some profile = Some profile0
                 ∧ accepted obj sense0
                 ∧ build_problem (optimizer w) profile0 m obj sense0 = Ok p0
                 ∧ c = (@None string, p0)) as Hcalls.
  { intros c Hc. exists profile, sense, p. repeat split; try done.
    rewrite !elem_of_cons, elem_of_nil in Hc. by destruct Hc as [->|[->|[]]]. }
  repeat case_bool_decide; intros [= _ <-]; simpl.
  - exists [(None, p)]. split; [done|]. intros c Hc. apply Hcalls. by right.
  - exists [(None, p); (None, p)]. split; [by rewrite <- app_assoc|done].
  - exists [(None, p); (None, p)]. split; [by rewrite <- app_assoc|done].
  - exists [(None, p)]. split; [done|]. intros c Hc. apply Hcalls. by right.
Qed.

(** ** The indefinite status *)

(** C3 (amended): when the first solve answers "Not Solved", [solve] requests
    exactly one more solve, of the same problem and again with the default
    solver.  An Optimal second answer is reported with status "FEASIBLE";
    any other second answer, "Not Solved" included, is reported as the
    failure result with status "INFEASIBLE", the backend's status appearing
    only in the message. *)
Theorem not_solved_retried_once backend pn m obj w profile sense p :
  nutritional_profiles (optimizer w) !! pn = Some profile ->
  accepted obj sense ->
  build_problem (optimizer w) profile m obj sense = Ok p ->
  (backend (length (solver_calls w)) None p).1 = LpStatusNotSolved ->
  let r2 := backend (S (length (solver_calls w))) None p in
  ∃ out w',
    solve backend pn m obj w = (out, w')
    ∧ solver_calls w' = solver_calls w ++ [(None, p); (None, p)]
    ∧ (r2.1 = LpStatusOptimal ->
       out = obind (_extract_solution (optimizer w) r2.2 pn) (λ solution,
               Ok (Solved solution "FEASIBLE" (value (pobjective p) r2.2))))
    ∧ (r2.1 ≠ LpStatusOptimal ->
       out = Ok (NoSolution "INFEASIBLE"
                   ("No feasible solution found. Status: " +:+ LpStatus r2.1
                      +:+ ". Try relaxing constraints."))).
Proof.
  intros Hp Hacc Hb H1 r2.
  rewrite (solve_built backend pn m obj w profile sense p Hp Hacc Hb).
  simpl. rewrite H1. simpl. fold r2.
  case_bool_decide as H2.
  - eexists _, _. split; [done|]. split.
    + simpl. by rewrite <- app_assoc.
    + split; [done|]. intros H. by destruct H.
  - eexists _, _. split; [done|]. split.
    + simpl. by rewrite <- app_assoc.
    + split; [intros H; by destruct H2|done].
Qed.

Lemma not_solved_retried_once_witness :
  ∃ out w',
    solve (scripted [LpStatusNotSolved; LpStatusOptimal] sample_plan)
          "healthy-adult" 3 "minimize_cost" (fresh weekly) = (out, w')
    ∧ solver_calls w' = [(None, sample_problem); (None, sample_problem)].
Proof.
  destruct (not_solved_retried_once
              (scripted [LpStatusNotSolved; LpStatusOptimal] sample_plan)
              "healthy-adult" 3 "minimize_cost" (fresh weekly)
              protein_profile LpMinimize sample_problem)
    as (out & w' & Hrun & Hcalls & _).
  - reflexivity.
  - constructor.
  - vm_compute. reflexivity.
  - reflexivity.
  - exists out, w'. split; [exact Hrun | exact Hcalls].
Defined.

(** C3 as stated fails: two "Not Solved" answers in a row give the same
    "INFEASIBLE" result status as a proven infeasibility, and the retry is
    the same request as the first attempt. *)
Lemma two_not_solved_reported_infeasible :
  (solve (scripted [LpStatusNotSolved; LpStatusNotSolved] unset)
         "healthy-adult" 3 "minimize_cost" (fresh weekly)).1
  = Ok (NoSolution "INFEASIBLE"
          "No feasible solution found. Status: Not Solved. Try relaxing constraints.")
  ∧ (solve (scripted [LpStatusInfeasible] unset)
           "healthy-adult" 3 "minimize_cost" (fresh weekly)).1
    = Ok (NoSolution "INFEASIBLE"
            "No feasible solution found. Status: Infeasible. Try relaxing constraints.")
  ∧ solver_calls
      (solve (scripted [LpStatusNotSolved; LpStatusNotSolved] unset)
             "healthy-adult" 3 "minimize_cost" (fresh weekly)).2
    = [(None, sample_problem); (None, sample_problem)].
Proof. split; [|split]; by vm_compute. Qed.

(** ** Comprehensions that may raise *)

Lemma omap_list_ok {A B} (f : A -> outcome B) (l : list A) :
  (∀ a, a ∈ l -> ∃ b, f a = Ok b) ->
  ∃ bs, omap_list f l = Ok bs ∧ Forall2 (λ a b, f a = Ok b) l bs.
Proof.
  induction l as [|a l IH]; intros H; simpl.
  - exists []. by split; [|constructor].
  - destruct (H a) as [b Hb]; [by left|].
    destruct IH as (bs & Hbs & HF); [intros a' Ha'; apply H; by right|].
    exists (b :: bs). rewrite Hb, Hbs. simpl. split; [done|]. by constructor.
Qed.

Lemma omap_list_inv {A B} (f : A -> outcome B) (l : list A) bs :
  omap_list f l = Ok bs -> Forall2 (λ a b, f a = Ok b) l bs.
Proof.
  revert bs. induction l as [|a l IH]; intros bs; simpl.
  - intros [= <-]. constructor.
  - destruct (f a) as [b|e] eqn:Hb; simpl; [|done].
    destruct (omap_list f l) as [bs'|e] eqn:Hbs; simpl; [|done].
    intros [= <-]. constructor; [done|]. by apply IH.
Qed.

(** ** The constraints of the built problem *)

Lemma build_problem_inv self profile m obj sense p :
  build_problem self profile m obj sense = Ok p ->
  ∃ c3, nutrient_constraints self profile = Ok c3
        ∧ p = {| pname := "MealPlanning"; psense := sense;
                 pobjective := objective_expr self obj;
                 constraints := cap_constraints self m ++ day_constraints self
                                ++ c3 ++ [total_constraint self] |}.
Proof.
  unfold build_problem.
  destruct (nutrient_constraints self profile) as [c3|e]; simpl; [|done].
  intros [= <-]. by exists c3.
Qed.

Lemma total_constraint_in self profile m obj sense p :
  build_problem self profile m obj sense = Ok p ->
  total_constraint self ∈ constraints p.
Proof.
  intros (c3 & _ & ->)%build_problem_inv. simpl.
  rewrite !elem_of_app. right. right. right. by apply list_elem_of_singleton.
Qed.

(** A feasible assignment satisfies each constraint of the problem. *)
Lemma feasibleb_holds x p c :
  feasibleb x p = true -> c ∈ constraints p ->
  holdsb x c = true ∧ ∀ t, t ∈ lhs c -> binaryb x t.2 = true.
Proof.
  unfold feasibleb. rewrite forallb_forall. intros H Hc.
  apply list_elem_of_In in Hc. apply H in Hc.
  apply andb_true_iff in Hc as [Hb Hh]. split; [done|].
  intros t Ht. rewrite forallb_forall in Hb. apply Hb.
  by apply list_elem_of_In.
Qed.

(** ** The empty catalog *)

Lemma indexed_meals_nil self : meals self = [] -> indexed_meals self = [].
Proof. intros Hm. unfold indexed_meals, num_meals. by rewrite Hm. Qed.

Lemma nutrient_constraints_no_meals self profile :
  meals self = [] -> ∃ c3, nutrient_constraints self profile = Ok c3.
Proof.
  intros Hm. unfold nutrient_constraints.
  destruct (omap_list_ok (nutrient_block self profile) nutrients_to_process)
    as (bs & -> & _); [|by eexists].
  intros nutrient _. unfold nutrient_block, nutrient_expr.
  rewrite (indexed_meals_nil self Hm). simpl.
  destruct (profile !! _) as [b|]; [|by eexists].
  destruct (Qltb 0 (b_min b)), (b_max b); simpl; by eexists.
Qed.

Lemma extract_solution_no_meals self x pn :
  meals self = [] -> ∃ solution, _extract_solution self x pn = Ok solution.
Proof.
  intros Hm. unfold _extract_solution, extract_selected.
  rewrite (indexed_meals_nil self Hm). simpl. by eexists.
Qed.

Lemma total_constraint_no_meals self x :
  meals self = [] -> holdsb x (total_constraint self) = false.
Proof.
  intros Hm. unfold holdsb, total_constraint, total_meals_expr, num_meals.
  rewrite Hm. done.
Qed.

(** C1 (amended): on a catalog with no meals, a registered profile name and
    an accepted objective, [solve] raises nothing: it creates no decision
    variable, requests a solve of the built problem and returns a result.
    The problem contains the unsatisfiable constraint [0 == 7], so with a
    sound backend the result has status "INFEASIBLE". *)
Theorem empty_catalog_reaches_solver backend pn m obj w :
  meals (optimizer w) = [] ->
  is_Some (nutritional_profiles (optimizer w) !! pn) ->
  obj = "minimize_cost" ∨ obj = "maximize_rating" ->
  ∃ r w' p rest,
    solve backend pn m obj w = (Ok r, w')
    ∧ lp_variables w' = lp_variables w
    ∧ solver_calls w' = solver_calls w ++ (None, p) :: rest
    ∧ (sound backend -> result_status r = "INFEASIBLE").
Proof.
  intros Hm [profile Hp] [sense Hacc]%accepted_exists.
  destruct (nutrient_constraints_no_meals (optimizer w) profile Hm) as [c3 Hc3].
  assert (∃ p, build_problem (optimizer w) profile m obj sense = Ok p)
    as [p Hb].
  { unfold build_problem. rewrite Hc3. by eexists. }
  assert (∀ x, feasibleb x p = false) as Hinf.
  { intros x. destruct (feasibleb x p) eqn:Hf; [|done].
    destruct (feasibleb_holds x p (total_constraint (optimizer w)) Hf) as [Hh _].
    - by eapply total_constraint_in.
    - by rewrite total_constraint_no_meals in Hh. }
  assert (all_pairs (optimizer w) = []) as Hpairs.
  { unfold all_pairs, num_meals. by rewrite Hm. }
  rewrite (solve_built backend pn m obj w profile sense p Hp Hacc Hb).
  rewrite Hpairs, add_vars_nil.
  set (r1 := backend (length (solver_calls w)) None p).
  set (r2 := backend (S (length (solver_calls w))) None p).
  assert (∀ n, sound backend -> (backend n None p).1 ≠ LpStatusOptimal) as Hno.
  { intros n Hs Ho. apply Hs in Ho. by rewrite Hinf in Ho. }
  case_bool_decide as H1.
  { destruct (extract_solution_no_meals (optimizer w) r1.2 pn Hm) as [s ->].
    simpl. eexists _, _, p, []. repeat split; try done.
    intros Hs. by destruct (Hno _ Hs H1). }
  case_bool_decide as H2.
  - case_bool_decide as H3.
    + destruct (extract_solution_no_meals (optimizer w) r2.2 pn Hm) as [s ->].
      simpl. eexists _, _, p, [(None, p)]. repeat split; try done.
      * simpl. by rewrite <- app_assoc.
      * intros Hs. by destruct (Hno _ Hs H3).
    + eexists _, _, p, [(None, p)]. repeat split; try done.
      simpl. by rewrite <- app_assoc.
  - eexists _, _, p, []. repeat split; done.
Qed.

Lemma empty_catalog_reaches_solver_witness :
  ∃ r w' p rest,
    solve (scripted [LpStatusInfeasible] unset) "healthy-adult" 2
          "minimize_cost" (fresh no_meals) = (Ok r, w')
    ∧ lp_variables w' = []
    ∧ solver_calls w' = [] ++ (None, p) :: rest
    ∧ (sound (scripted [LpStatusInfeasible] unset) ->
       result_status r = "INFEASIBLE").
Proof.
  apply (empty_catalog_reaches_solver (scripted [LpStatusInfeasible] unset)
           "healthy-adult" 2 "minimize_cost" (fresh no_meals)).
  - reflexivity.
  - vm_compute. eauto.
  - by left.
Defined.

(** C1 as stated fails: on an empty catalog [solve] raises nothing, the
    solve is requested, and the infeasible result is what comes back. *)
Lemma empty_catalog_not_rejected :
  meals no_meals = []
  ∧ (solve (scripted [LpStatusInfeasible] unset) "healthy-adult" 2
           "minimize_cost" (fresh no_meals)).1
    = Ok (NoSolution "INFEASIBLE"
            "No feasible solution found. Status: Infeasible. Try relaxing constraints.")
  ∧ length (solver_calls
              (solve (scripted [LpStatusInfeasible] unset) "healthy-adult" 2
                     "minimize_cost" (fresh no_meals)).2) = 1.
Proof. split; [|split]; by vm_compute. Qed.

(** ** The profile registry across [run_optimization] *)

(** [solve] only reads the optimiser object. *)
Lemma solve_optimizer backend pn m obj w out w' :
  solve backend pn m obj w = (out, w') -> optimizer w' = optimizer w.
Proof.
  destruct (nutritional_profiles (optimizer w) !! pn) as [profile|] eqn:Hp.
  2:{ rewrite solve_unknown_profile by done. by intros [= _ <-]. }
  destruct (objective_cases obj) as [[sense Hacc]%accepted_exists|[H1 H2]].
  2:{ rewrite (solve_unknown_objective _ _ _ _ _ profile) by done.
      by intros [= _ <-]. }
  destruct (build_problem (optimizer w) profile m obj sense) as [p|e] eqn:Hb.
  - rewrite (solve_built backend pn m obj w profile sense p Hp Hacc Hb).
    repeat case_bool_decide; by intros [= _ <-].
  - rewrite (solve_build_raises backend pn m obj w profile sense e Hp Hacc Hb).
    by intros [= _ <-].
Qed.

(** C10: after [run_optimization] returns normally the key "custom" is absent
    from the registry; no other key is touched by the call, whether it
    returns or raises; and when it raises, the entry "custom" it inserted is
    left behind. *)
Theorem run_optimization_registry backend requirements objective freq w out w' :
  run_optimization backend requirements objective freq w = (out, w') ->
  (∀ k, k ≠ "custom" ->
     nutritional_profiles (optimizer w') !! k
     = nutritional_profiles (optimizer w) !! k)
  ∧ match out with
    | Ok _ => nutritional_profiles (optimizer w') !! "custom" = None
    | Raise _ =>
        nutritional_profiles (optimizer w') !! "custom"
        = Some (custom_profile requirements)
    end.
Proof.
  unfold run_optimization. unfold bind at 1, set_profile at 1.
  set (w0 := with_registry w _).
  unfold bind at 1.
  destruct (solve backend "custom" freq objective w0) as [[r|e] w1] eqn:Hs;
    apply solve_optimizer in Hs.
  - unfold bind at 1, del_profile. rewrite Hs. unfold w0 at 1. simpl.
    rewrite lookup_insert_eq. unfold ret. intros [= <- <-]. simpl. split.
    + intros k Hk. rewrite lookup_delete_ne by done.
      by rewrite lookup_insert_ne.
    + apply lookup_delete_eq.
  - intros [= <- <-]. rewrite Hs. simpl. split.
    + intros k Hk. by rewrite lookup_insert_ne.
    + apply lookup_insert_eq.
Qed.

Lemma run_optimization_registry_witness :
  (∃ r w',
     run_optimization (proposing sample_plan) ∅ "minimize_cost" 3 (fresh weekly)
     = (Ok r, w')
     ∧ nutritional_profiles (optimizer w') !! "custom" = None)
  ∧ (∃ e w',
       run_optimization (proposing sample_plan) ∅ "cheapest" 3 (fresh weekly)
       = (Raise e, w')
       ∧ nutritional_profiles (optimizer w') !! "custom" = Some (custom_profile ∅)).
Proof.
  split.
  - destruct (run_optimization (proposing sample_plan) ∅ "minimize_cost" 3
                (fresh weekly)) as [out w'] eqn:Hrun.
    assert (∃ r, out = Ok r) as [r ->].
    { apply (f_equal fst) in Hrun. vm_compute in Hrun. rewrite <- Hrun. eauto. }
    exists r, w'. split; [done|].
    exact (proj2 (run_optimization_registry (proposing sample_plan) ∅
                    "minimize_cost" 3 (fresh weekly) (Ok r) w' Hrun)).
  - destruct (run_optimization (proposing sample_plan) ∅ "cheapest" 3
                (fresh weekly)) as [out w'] eqn:Hrun.
    assert (∃ e, out = Raise e) as [e ->].
    { apply (f_equal fst) in Hrun. vm_compute in Hrun. rewrite <- Hrun. eauto. }
    exists e, w'. split; [done|].
    exact (proj2 (run_optimization_registry (proposing sample_plan) ∅
                    "cheapest" 3 (fresh weekly) (Raise e) w' Hrun)).
Defined.

(** ** Solution extraction *)

Lemma Qltb_lt a b : Qltb a b = true ↔ (a < b)%Q.
Proof.
  unfold Qltb. rewrite negb_true_iff. split.
  - intros H. apply Qnot_le_lt. intros Hle.
    apply Qle_bool_iff in Hle. congruence.
  - intros H. destruct (Qle_bool b a) eqn:Hle; [|done].
    apply Qle_bool_iff in Hle. by apply Qlt_not_le in H.
Qed.

Lemma is_selected_spec x v :
  is_selected x v ↔ ∃ q, x v = Some q ∧ (1 # 2 < q)%Q.
Proof.
  unfold is_selected. destruct (x v) as [q|].
  - rewrite Is_true_true, Qltb_lt. split; [by exists q|].
    by intros (q' & [= <-] & H).
  - split; [done|]. by intros (q & [=] & _).
Qed.

Lemma indexed_meals_lookup self i m :
  (i, m) ∈ indexed_meals self -> meals self !! i = Some m.
Proof.
  unfold indexed_meals. intros (k & i' & m' & [= -> ->] & Hi & Hm)%elem_of_lookup_zip_with.
  apply lookup_seq in Hi as [-> _]. done.
Qed.

Lemma indexed_meals_fst self : (indexed_meals self).*1 = seq 0 (num_meals self).
Proof.
  unfold indexed_meals. apply fst_zip. rewrite length_seq. done.
Qed.

Lemma slot_day_in_range self j :
  j < total_meal_slots self -> j / meals_per_day self < num_days self.
Proof.
  unfold total_meal_slots. intros H.
  destruct (meals_per_day self) as [|k] eqn:Hk; [lia|].
  apply Nat.Div0.div_lt_upper_bound. lia.
Qed.

(** Inside the slot range the entry is built without an [IndexError]. *)
Lemma meal_info_ok self i m j :
  meals self !! i = Some m -> j < total_meal_slots self ->
  ∃ info, meal_info self i m j = Ok info ∧ entry_of self (i, j) info.
Proof.
  intros Hm Hj. unfold meal_info, list_getitem.
  destruct (lookup_lt_is_Some_2 (days_of_week self) (j / meals_per_day self))
    as [d Hd]; [by apply slot_day_in_range|].
  rewrite Hd. simpl. eexists. split; [done|]. by repeat split.
Qed.

Lemma extract_row self x i m js :
  meals self !! i = Some m ->
  (∀ j, j ∈ js -> j < total_meal_slots self) ->
  ∃ row,
    omap_list (λ j, if is_selected x (i, j)
                    then try! info := meal_info self i m j in Ok [info]
                    else Ok []) js = Ok row
    ∧ Forall2 (entry_of self)
        (filter (λ v, is_selected x v) (js ≫= λ j, [(i, j)])) (concat row).
Proof.
  intros Hm. induction js as [|j js IH]; intros Hjs.
  - exists []. split; [done|]. constructor.
  - destruct IH as (row & Hrow & HF); [intros j' Hj'; apply Hjs; by right|].
    simpl omap_list. rewrite Hrow.
    change ((j :: js) ≫= λ j0, [(i, j0)]) with ((i, j) :: (js ≫= λ j0, [(i, j0)])).
    destruct (is_selected x (i, j)) eqn:Hsel.
    + destruct (meal_info_ok self i m j Hm) as (info & -> & He);
        [apply Hjs; by left|].
      simpl. exists ([info] :: row). split; [done|].
      rewrite filter_cons_True by (by rewrite Hsel). simpl. by constructor.
    + simpl. exists ([] :: row). split; [done|].
      rewrite filter_cons_False by (rewrite Hsel; exact id). done.
Qed.

Lemma extract_rows self x (ims : list (nat * Meal)) :
  (∀ i m, (i, m) ∈ ims -> meals self !! i = Some m) ->
  ∃ rows,
    omap_list (λ '(i, m),
        try! row := omap_list (λ j,
            if is_selected x (i, j)
            then try! info := meal_info self i m j in Ok [info]
            else Ok []) (slots self) in
        Ok (concat row)) ims = Ok rows
    ∧ Forall2 (entry_of self)
        (filter (λ v, is_selected x v)
           (ims.*1 ≫= λ i, slots self ≫= λ j, [(i, j)]))
        (concat rows).
Proof.
  induction ims as [|[i m] ims IH]; intros Hims.
  - exists []. split; [done|]. constructor.
  - destruct IH as (rows & Hrows & HF).
    { intros i' m' H. apply Hims. by right. }
    destruct (extract_row self x i m (slots self)) as (row & Hrow & HFrow).
    { apply Hims. by left. }
    { intros j Hj. unfold slots in Hj. apply elem_of_seq in Hj. lia. }
    simpl omap_list. rewrite Hrow. simpl. rewrite Hrows. simpl.
    exists (concat row :: rows). split; [done|].
    rewrite filter_app. simpl. by apply Forall2_app.
Qed.

Lemma extract_selected_ok self x :
  ∃ entries, extract_selected self x = Ok entries
             ∧ Forall2 (entry_of self) (selected_pairs self x) entries.
Proof.
  destruct (extract_rows self x (indexed_meals self)) as (rows & Hrows & HF).
  { intros i m. apply indexed_meals_lookup. }
  unfold extract_selected. rewrite Hrows. simpl. exists (concat rows).
  split; [done|]. unfold selected_pairs, all_pairs.
  by rewrite <- indexed_meals_fst.
Qed.

Lemma all_pairs_elem self i j :
  (i, j) ∈ all_pairs self ↔ i < num_meals self ∧ j < total_meal_slots self.
Proof.
  unfold all_pairs, slots. rewrite list_elem_of_bind. split.
  - intros (i' & (j' & Hj & Hs)%list_elem_of_bind & Hi).
    apply list_elem_of_singleton in Hj as [= -> ->].
    apply elem_of_seq in Hi, Hs. lia.
  - intros [Hi Hj]. exists i. split; [|apply elem_of_seq; lia].
    apply list_elem_of_bind. exists j. split; [by apply list_elem_of_singleton|].
    apply elem_of_seq. lia.
Qed.

Lemma all_pairs_NoDup self : NoDup (all_pairs self).
Proof.
  unfold all_pairs. apply NoDup_bind; [| |apply NoDup_seq].
  - intros i1 i2 [i j] _ _ (j1 & H1 & _)%list_elem_of_bind
      (j2 & H2 & _)%list_elem_of_bind.
    apply list_elem_of_singleton in H1, H2. congruence.
  - intros i _. apply NoDup_bind; [| |apply NoDup_seq].
    + intros j1 j2 v _ _ H1 H2.
      apply list_elem_of_singleton in H1, H2. congruence.
    + intros j _. apply NoDup_singleton.
Qed.

(** C7 (amended): the extraction loop never raises, and its entries are, in
    loop order, exactly one per pair [(i, j)] of the matrix whose value
    exceeds 0.5 and none for any other pair.  The entry of [(i, j)] holds
    the meal at index [i], the name of the day at index [j / meals_per_day],
    the one-based slot number [j mod meals_per_day + 1] and the meal's cost. *)
Theorem extract_selected_entries self x :
  ∃ entries,
    extract_selected self x = Ok entries
    ∧ Forall2 (entry_of self) (selected_pairs self x) entries
    ∧ NoDup (selected_pairs self x)
    ∧ ∀ i j, (i, j) ∈ selected_pairs self x
             ↔ i < num_meals self ∧ j < total_meal_slots self
               ∧ ∃ q, x (i, j) = Some q ∧ (1 # 2 < q)%Q.
Proof.
  destruct (extract_selected_ok self x) as (entries & He & HF).
  exists entries. split; [done|]. split; [done|]. split.
  - unfold selected_pairs. apply NoDup_filter, all_pairs_NoDup.
  - intros i j. unfold selected_pairs.
    rewrite list_elem_of_filter, all_pairs_elem, is_selected_spec. tauto.
Qed.

(** C7 as stated fails: the entry of the pair [(0, 0)] carries slot number 1,
    not the slot index [0 mod 1 = 0], and a day name, not a day index. *)
Lemma first_entry_slot_is_one :
  ∃ info rest,
    extract_selected weekly sample_plan = Ok (info :: rest)
    ∧ head (selected_pairs weekly sample_plan) = Some (0, 0)
    ∧ meal_slot info = 1
    ∧ 0 mod meals_per_day weekly = 0
    ∧ day info = "Monday".
Proof.
  destruct (extract_selected weekly sample_plan) as [[|info rest]|e] eqn:He;
    vm_compute in He; try discriminate.
  exists info, rest. injection He as <- _. by vm_compute.
Qed.

(** ** Counting selections under a feasible assignment *)

Lemma binaryb_spec x v :
  binaryb x v = true -> ∃ q, x v = Some q ∧ (q == 0 ∨ q == 1)%Q.
Proof.
  unfold binaryb. destruct (x v) as [q|]; [|done].
  intros [H|H]%orb_true_iff; apply Qeq_bool_iff in H; eauto.
Qed.

Lemma inject_nat_succ n :
  (inject_Z (Z.of_nat (S n)) == 1 + inject_Z (Z.of_nat n))%Q.
Proof.
  rewrite Nat2Z.inj_succ. unfold Z.succ. rewrite inject_Z_plus. ring.
Qed.

(** A sum of binary variables counts those that are selected. *)
Lemma value_counts_selected x (l : list LpVar) :
  (∀ v, v ∈ l -> binaryb x v = true) ->
  ∃ s, value ((λ v, (1%Q, v)) <$> l) x = Some s
       ∧ (s == inject_Z (Z.of_nat (length (filter (λ v, is_selected x v) l))))%Q.
Proof.
  induction l as [|v l IH]; intros Hb.
  - exists 0%Q. split; [done|]. reflexivity.
  - destruct IH as (s & Hs & Heq); [intros v' Hv'; apply Hb; by right|].
    destruct (binaryb_spec x v) as (q & Hq & Hq01); [apply Hb; by left|].
    rewrite fmap_cons. cbn [value]. rewrite Hq, Hs.
    eexists. split; [done|].
    destruct Hq01 as [H0|H1].
    + rewrite filter_cons_False.
      * rewrite H0, Heq. ring.
      * rewrite is_selected_spec. intros (q' & Hq' & Hlt).
        rewrite Hq in Hq'. injection Hq' as <-. rewrite H0 in Hlt.
        revert Hlt. unfold Qlt. simpl. lia.
    + rewrite filter_cons_True.
      * simpl length. rewrite inject_nat_succ, H1, Heq. ring.
      * rewrite is_selected_spec. exists q. split; [done|]. by rewrite H1.
Qed.

Lemma inject_nat_eq_one n : (inject_Z (Z.of_nat n) == 1)%Q ↔ n = 1.
Proof.
  change 1%Q with (inject_Z 1). rewrite inject_Z_injective. lia.
Qed.

Lemma inject_nat_le n (m : Z) :
  (inject_Z (Z.of_nat n) <= inject_Z m)%Q ↔ (Z.of_nat n <= m)%Z.
Proof. by rewrite <- Zle_Qle. Qed.

Lemma bind_singleton_fmap {A B} (f : A -> B) (l : list A) :
  l ≫= (λ a, [f a]) = f <$> l.
Proof.
  induction l as [|a l IH]; [done|].
  rewrite fmap_cons, <- IH. done.
Qed.

(** ** One selection per day *)

Lemma day_constraint_in self profile m obj sense p d :
  build_problem self profile m obj sense = Ok p ->
  d < num_days self ->
  day_constraint self d ∈ constraints p.
Proof.
  intros (c3 & _ & ->)%build_problem_inv Hd. simpl.
  rewrite !elem_of_app. right. left. unfold day_constraints.
  apply list_elem_of_fmap. exists d. split; [done|]. apply elem_of_seq. lia.
Qed.

Lemma day_vars_elem self d v :
  v ∈ day_vars self d
  ↔ ∃ i s, v = (i, d * meals_per_day self + s)
           ∧ i < num_meals self ∧ s < meals_per_day self.
Proof.
  unfold day_vars. rewrite list_elem_of_bind. split.
  - intros (i & (s & Hv & Hs)%list_elem_of_bind & Hi).
    apply list_elem_of_singleton in Hv. apply elem_of_seq in Hi, Hs.
    exists i, s. split; [done|]. lia.
  - intros (i & s & -> & Hi & Hs). exists i. split; [|apply elem_of_seq; lia].
    apply list_elem_of_bind. exists s.
    split; [by apply list_elem_of_singleton|]. apply elem_of_seq. lia.
Qed.

Lemma day_vars_NoDup self d : NoDup (day_vars self d).
Proof.
  unfold day_vars. apply NoDup_bind; [| |apply NoDup_seq].
  - intros i1 i2 [i j] _ _ (j1 & H1 & _)%list_elem_of_bind
      (j2 & H2 & _)%list_elem_of_bind.
    apply list_elem_of_singleton in H1, H2. congruence.
  - intros i _. apply NoDup_bind; [| |apply NoDup_seq].
    + intros j1 j2 v _ _ H1 H2.
      apply list_elem_of_singleton in H1, H2.
      assert (d * meals_per_day self + j1 = d * meals_per_day self + j2)
        by congruence. lia.
    + intros j _. apply NoDup_singleton.
Qed.

Lemma day_constraint_holds self d x :
  (∀ v, v ∈ day_vars self d -> binaryb x v = true) ->
  holdsb x (day_constraint self d) = true
  ↔ length (filter (λ v, is_selected x v) (day_vars self d)) = 1.
Proof.
  intros Hb. destruct (value_counts_selected x (day_vars self d) Hb)
    as (s & Hs & Heq).
  unfold holdsb, day_constraint. simpl. rewrite Hs.
  rewrite Qeq_bool_iff, Heq. apply inject_nat_eq_one.
Qed.

(** C5: for every day [d] of the schedule the built problem contains one
    constraint [== 1] whose left-hand side is the sum, with coefficient 1,
    of the variables of all meals over all slots of day [d] (each such
    variable once); on binary values it holds exactly when one (meal, slot)
    pair of that day is selected. *)
Theorem one_selection_per_day self profile m obj sense p d :
  build_problem self profile m obj sense = Ok p ->
  d < num_days self ->
  day_constraint self d ∈ constraints p
  ∧ day_constraint self d
    = {| lhs := (λ v, (1%Q, v)) <$> day_vars self d;
         csense := LpConstraintEQ; rhs := 1%Q |}
  ∧ NoDup (day_vars self d)
  ∧ (∀ v, v ∈ day_vars self d
          ↔ ∃ i s, v = (i, d * meals_per_day self + s)
                   ∧ i < num_meals self ∧ s < meals_per_day self)
  ∧ (∀ x, (∀ v, v ∈ day_vars self d -> binaryb x v = true) ->
          holdsb x (day_constraint self d) = true
          ↔ length (filter (λ v, is_selected x v) (day_vars self d)) = 1).
Proof.
  intros Hb Hd. split; [by eapply day_constraint_in|].
  split; [done|]. split; [apply day_vars_NoDup|].
  split; [apply day_vars_elem|]. apply day_constraint_holds.
Qed.

Lemma one_selection_per_day_witness :
  day_constraint weekly 3 ∈ constraints sample_problem
  ∧ length (filter (λ v, is_selected sample_plan v) (day_vars weekly 3)) = 1.
Proof.
  destruct (one_selection_per_day weekly protein_profile 3 "minimize_cost"
              LpMinimize sample_problem 3) as (Hin & _ & _ & _ & Hsem).
  - vm_compute. reflexivity.
  - vm_compute. lia.
  - split; [exact Hin|]. apply Hsem.
    + intros v Hv. apply day_vars_elem in Hv as (i & s & -> & Hi & Hs).
      vm_compute in Hi, Hs. unfold binaryb, sample_plan.
      repeat case_bool_decide; done.
    + by vm_compute.
Defined.

(** ** The repetition cap *)

Lemma cap_constraint_in self profile m obj sense p i :
  build_problem self profile m obj sense = Ok p ->
  i < num_meals self ->
  cap_constraint self m i ∈ constraints p.
Proof.
  intros (c3 & _ & ->)%build_problem_inv Hi. simpl.
  rewrite !elem_of_app. left. unfold cap_constraints.
  apply list_elem_of_fmap. exists i. split; [done|]. apply elem_of_seq. lia.
Qed.

Lemma cap_constraint_lhs self m i :
  lhs (cap_constraint self m i) = (λ v, (1%Q, v)) <$> row_of self i.
Proof. unfold cap_constraint, row_of. simpl. by rewrite <- list_fmap_compose. Qed.

Lemma cap_constraint_holds self m i x :
  (∀ v, v ∈ row_of self i -> binaryb x v = true) ->
  holdsb x (cap_constraint self m i) = true
  ↔ (Z.of_nat (length (filter (λ v, is_selected x v) (row_of self i))) <= m)%Z.
Proof.
  intros Hb. destruct (value_counts_selected x (row_of self i) Hb)
    as (s & Hs & Heq).
  unfold holdsb. rewrite cap_constraint_lhs, Hs. simpl.
  rewrite Qle_bool_iff, Heq. apply inject_nat_le.
Qed.

Lemma filter_fst_row (i i' : nat) (js : list nat) :
  filter (λ v : LpVar, v.1 = i) (js ≫= λ j, [(i', j)])
  = if decide (i' = i) then js ≫= (λ j, [(i', j)]) else [].
Proof.
  induction js as [|j js IH]; [by case_decide|].
  change ((j :: js) ≫= λ j0, [(i', j0)])
    with ((i', j) :: (js ≫= λ j0, [(i', j0)])).
  case_decide as Hi.
  - rewrite filter_cons_True by done. f_equal. exact IH.
  - rewrite filter_cons_False by done. exact IH.
Qed.

Lemma filter_fst_pairs (i : nat) (l js : list nat) :
  NoDup l -> i ∈ l ->
  filter (λ v : LpVar, v.1 = i) (l ≫= λ i', js ≫= λ j, [(i', j)])
  = js ≫= (λ j, [(i, j)]).
Proof.
  assert (∀ l', i ∉ l' ->
    filter (λ v : LpVar, v.1 = i) (l' ≫= λ i', js ≫= λ j, [(i', j)]) = [])
    as Hout.
  { induction l' as [|i' l' IH]; intros Hni; [done|].
    apply not_elem_of_cons in Hni as [Hne Hni].
    change ((i' :: l') ≫= λ i0, js ≫= λ j, [(i0, j)])
      with ((js ≫= λ j, [(i', j)]) ++ (l' ≫= λ i0, js ≫= λ j, [(i0, j)])).
    rewrite filter_app, filter_fst_row.
    rewrite decide_False by done. simpl. by apply IH. }
  induction l as [|i' l IH]; intros Hnd Hin; [by apply elem_of_nil in Hin|].
  apply NoDup_cons in Hnd as [Hni Hnd].
  change ((i' :: l) ≫= λ i0, js ≫= λ j, [(i0, j)])
    with ((js ≫= λ j, [(i', j)]) ++ (l ≫= λ i0, js ≫= λ j, [(i0, j)])).
  rewrite filter_app, filter_fst_row.
  apply elem_of_cons in Hin as [<-|Hin].
  - rewrite decide_True by done.
    rewrite <- (app_nil_r (js ≫= λ j, [(i, j)])) at 2. f_equal. by apply Hout.
  - rewrite decide_False by (intros ->; done). simpl. by apply IH.
Qed.

(** Meal [i] is selected as often as its row has selected variables. *)
Lemma times_selected_row self x i :
  i < num_meals self ->
  times_selected i (selected_pairs self x)
  = length (filter (λ v, is_selected x v) (row_of self i)).
Proof.
  intros Hi. unfold times_selected, selected_pairs.
  rewrite list_filter_filter.
  rewrite (list_filter_iff _ (λ v, is_selected x v ∧ v.1 = i)) by (intros; tauto).
  rewrite <- list_filter_filter. f_equal. f_equal.
  unfold all_pairs, row_of. rewrite <- bind_singleton_fmap.
  apply filter_fst_pairs; [apply NoDup_seq|]. apply elem_of_seq. lia.
Qed.

(** A successful [solve] extracted its solution from values the backend
    reported as Optimal for the built problem. *)
Lemma solve_solved_inv backend pn m obj w solution st ov w' :
  solve backend pn m obj w = (Ok (Solved solution st ov), w') ->
  ∃ profile sense p n,
    nutritional_profiles (optimizer w) !! pn = Some profile
    ∧ accepted obj sense
    ∧ build_problem (optimizer w) profile m obj sense = Ok p
    ∧ (backend n None p).1 = LpStatusOptimal
    ∧ _extract_solution (optimizer w) (backend n None p).2 pn = Ok solution.
Proof.
  destruct (nutritional_profiles (optimizer w) !! pn) as [profile|] eqn:Hp.
  2:{ by rewrite solve_unknown_profile. }
  destruct (objective_cases obj) as [[sense Hacc]%accepted_exists|[H1 H2]].
  2:{ by rewrite (solve_unknown_objective _ _ _ _ _ profile). }
  destruct (build_problem (optimizer w) profile m obj sense) as [p|e] eqn:Hb.
  2:{ by rewrite (solve_build_raises backend pn m obj w profile sense e). }
  rewrite (solve_built backend pn m obj w profile sense p Hp Hacc Hb).
  intros H. exists profile, sense, p.
  case_bool_decide as H1.
  - exists (length (solver_calls w)). repeat split; try done.
    destruct (_extract_solution _ _ _); simpl in H; congruence.
  - case_bool_decide as H2; [|done].
    case_bool_decide as H3; [|done].
    exists (S (length (solver_calls w))). repeat split; try done.
    destruct (_extract_solution _ _ _); simpl in H; congruence.
Qed.

Lemma extract_solution_selected self x pn solution :
  _extract_solution self x pn = Ok solution ->
  extract_selected self x = Ok (selected_meals solution).
Proof.
  unfold _extract_solution.
  destruct (extract_selected self x) as [sel|e]; simpl; [|done].
  destruct (_calculate_nutritional_summary sel); simpl; [|done].
  by intros [= <-].
Qed.

(** C6: for every meal [i] of the catalog the built problem contains the
    constraint that the sum of [x[i, j]] over all slots [j] is at most the
    cap [m]; hence, the backend being sound, whenever [solve] returns a
    solution (status "OPTIMAL" or "FEASIBLE") its entries are those of the
    selected pairs and no meal index occurs among these more than [m]
    times. *)
Theorem cap_respected backend pn (m : Z) obj w :
  (∀ profile sense p i,
     build_problem (optimizer w) profile m obj sense = Ok p ->
     i < num_meals (optimizer w) ->
     {| lhs := (λ j, (1%Q, (i, j))) <$> seq 0 (total_meal_slots (optimizer w));
        csense := LpConstraintLE;
        rhs := inject_Z m |} ∈ constraints p)
  ∧ (sound backend ->
     ∀ solution st ov w',
       solve backend pn m obj w = (Ok (Solved solution st ov), w') ->
       ∃ pairs,
         Forall2 (entry_of (optimizer w)) pairs (selected_meals solution)
         ∧ NoDup pairs
         ∧ ∀ i, i < num_meals (optimizer w) ->
                (Z.of_nat (times_selected i pairs) <= m)%Z).
Proof.
  split.
  { intros profile sense p i Hb Hi.
    apply (cap_constraint_in _ _ _ _ _ _ i Hb Hi). }
  intros Hsound solution st ov w' Hrun.
  apply solve_solved_inv in Hrun
    as (profile & sense & p & n & Hp & Hacc & Hb & Hopt & Hex).
  set (x := (backend n None p).2) in *.
  assert (feasibleb x p = true) as Hf by (by apply Hsound).
  apply extract_solution_selected in Hex.
  destruct (extract_selected_ok (optimizer w) x) as (entries & He & HF).
  rewrite Hex in He. injection He as <-.
  exists (selected_pairs (optimizer w) x). split; [done|]. split.
  { unfold selected_pairs. apply NoDup_filter, all_pairs_NoDup. }
  intros i Hi. rewrite times_selected_row by done.
  destruct (feasibleb_holds x p (cap_constraint (optimizer w) m i) Hf)
    as [Hh Hbin]; [by eapply cap_constraint_in|].
  apply cap_constraint_holds; [|done].
  intros v Hv. apply (Hbin (1%Q, v)).
  rewrite cap_constraint_lhs. by apply list_elem_of_fmap_2.
Qed.

Lemma proposing_sound x : sound (proposing x).
Proof.
  intros n solver p. unfold proposing.
  destruct (feasibleb x p) eqn:Hf; simpl; [done|discriminate].
Qed.

Lemma cap_respected_witness :
  ∃ solution st ov w' pairs,
    solve (proposing sample_plan) "healthy-adult" 3 "minimize_cost" (fresh weekly)
    = (Ok (Solved solution st ov), w')
    ∧ Forall2 (entry_of weekly) pairs (selected_meals solution)
    ∧ (Z.of_nat (times_selected 0 pairs) <= 3)%Z.
Proof.
  destruct (solve (proposing sample_plan) "healthy-adult" 3 "minimize_cost"
              (fresh weekly)) as [out w'] eqn:Hrun.
  assert (∃ solution st ov, out = Ok (Solved solution st ov))
    as (solution & st & ov & ->).
  { apply (f_equal fst) in Hrun. vm_compute in Hrun. rewrite <- Hrun. eauto. }
  destruct (proj2 (cap_respected (proposing sample_plan) "healthy-adult" 3
                     "minimize_cost" (fresh weekly))
              (proposing_sound sample_plan) solution st ov w' Hrun)
    as (pairs & HF & _ & Hcap).
  exists solution, st, ov, w', pairs. split; [done|]. split; [done|].
  apply Hcap. vm_compute. lia.
Defined.

(** ** The nutrient loop *)

(** For a nutrient of the catalog the loop looks the profile up under the
    catalog's own name. *)
Lemma nutrient_block_lookup self profile nutrient :
  nutrient ∈ nutrients_to_process ->
  profile !! nutrient = None ->
  nutrient_block self profile nutrient = Ok [].
Proof.
  intros Hn Hp. unfold nutrient_block, _map_profile_nutrient.
  rewrite mapping_catalog_key by done. simpl. by rewrite Hp.
Qed.

(** What one round of the loop adds for a catalog nutrient the profile
    names: a lower bound [>= min * 7] exactly when [min > 0], an upper bound
    [<= max * 7] exactly when [max] is finite. *)
Lemma nutrient_block_bounds self profile nutrient b e :
  nutrient ∈ nutrients_to_process ->
  profile !! nutrient = Some b ->
  nutrient_expr self nutrient = Ok e ->
  nutrient_block self profile nutrient
  = Ok ((if Qltb 0 (b_min b) then [lower_bound e (b_min b)] else [])
        ++ match b_max b with
           | Finite q => [upper_bound e q]
           | Infinity => []
           end).
Proof.
  intros Hn Hp He. unfold nutrient_block, _map_profile_nutrient.
  rewrite mapping_catalog_key by done. simpl. rewrite Hp, He.
  by destruct (Qltb 0 (b_min b)), (b_max b).
Qed.

(** Every constraint a round of the loop adds is in the built problem. *)
Lemma nutrient_block_in self profile m obj sense p nutrient block c :
  build_problem self profile m obj sense = Ok p ->
  nutrient ∈ nutrients_to_process ->
  nutrient_block self profile nutrient = Ok block ->
  c ∈ block -> c ∈ constraints p.
Proof.
  intros (c3 & Hc3 & ->)%build_problem_inv Hn Hblock Hc. simpl.
  rewrite !elem_of_app. right. right. left.
  unfold nutrient_constraints in Hc3.
  destruct (omap_list _ _) as [blocks|] eqn:Hblocks; [|done].
  simpl in Hc3. injection Hc3 as <-.
  apply omap_list_inv in Hblocks.
  apply list_elem_of_lookup in Hn as [k Hk].
  destruct (Forall2_lookup_l _ _ _ _ _ Hblocks Hk) as (block' & Hk' & Hb').
  rewrite Hblock in Hb'. injection Hb' as <-.
  apply list_elem_of_In, in_concat. exists block.
  split; apply list_elem_of_In; [|done].
  apply list_elem_of_lookup. eauto.
Qed.

Lemma omap_list_ext {A B} (f g : A -> outcome B) (l : list A) :
  (∀ a, a ∈ l -> f a = g a) -> omap_list f l = omap_list g l.
Proof.
  induction l as [|a l IH]; intros H; [done|]. simpl.
  rewrite (H a) by (by left). rewrite IH; [done|].
  intros a' Ha'. apply H. by right.
Qed.

(** A profile entry whose key is not a catalog name changes nothing: the
    loop never looks it up. *)
Lemma foreign_profile_key_ignored self (profile : Profile) k b :
  k ∉ nutrients_to_process ->
  nutrient_constraints self (<[k := b]> profile)
  = nutrient_constraints self profile.
Proof.
  intros Hk. unfold nutrient_constraints.
  rewrite (omap_list_ext (nutrient_block self (<[k := b]> profile))
             (nutrient_block self profile)); [done|].
  intros nutrient Hn. unfold nutrient_block, _map_profile_nutrient.
  rewrite mapping_catalog_key by done. simpl.
  rewrite lookup_insert_ne; [done|]. by intros ->.
Qed.

(** C2 at two failing inputs.  A profile bound given under the name
    "vitaminA", which the table maps to the catalog nutrient
    "vitamin_a_mcg", adds no constraint at all to the problem of the
    seven-day week; and on a two-day schedule the protein bounds are
    [min * 7] and [max * 7], not [min * 2] and [max * 2]. *)
Lemma profile_names_not_translated :
  _map_profile_nutrient "vitaminA" = "vitamin_a_mcg"
  ∧ "vitamin_a_mcg" ∈ nutrients_to_process
  ∧ vitamin_profile !! "vitaminA"
    = Some {| b_min := 150%Q; b_max := Finite 300%Q |}
  ∧ Qltb 0 150 = true
  ∧ nutrient_constraints weekly vitamin_profile = Ok []
  ∧ num_days two_days = 2
  ∧ ∃ e, nutrient_expr two_days "protein" = Ok e
         ∧ nutrient_constraints two_days protein_profile
           = Ok [ {| lhs := e; csense := LpConstraintGE; rhs := 140%Q |};
                  {| lhs := e; csense := LpConstraintLE; rhs := 245%Q |} ].
Proof.
  split; [by vm_compute|]. split; [apply list_elem_of_In; simpl; tauto|].
  split; [by vm_compute|]. split; [by vm_compute|].
  split; [by vm_compute|]. split; [by vm_compute|].
  eexists. split; by vm_compute.
Qed.

(** ** The cross-check on the total *)

(** The built problem always ends with the constraint that all variables
    sum to the constant 7. *)
Lemma total_constraint_seven self profile m obj sense p :
  build_problem self profile m obj sense = Ok p ->
  {| lhs := total_meals_expr self; csense := LpConstraintEQ; rhs := 7%Q |}
  ∈ constraints p.
Proof. apply total_constraint_in. Qed.

(** C4 at a failing input: on a schedule of two days the cross-check of the
    built problem demands 7 selections, no constraint demands 2, and with
    the two per-day constraints this leaves the problem without any
    feasible assignment. *)
Lemma cross_check_two_days :
  num_days two_days = 2
  ∧ ∃ p, build_problem two_days protein_profile 2 "minimize_cost" LpMinimize
         = Ok p
         ∧ {| lhs := total_meals_expr two_days; csense := LpConstraintEQ;
              rhs := 7%Q |} ∈ constraints p
         ∧ ¬ ({| lhs := total_meals_expr two_days; csense := LpConstraintEQ;
                  rhs := 2%Q |} ∈ constraints p)
         ∧ ∀ x, feasibleb x p = false.
Proof.
  split; [done|].
  destruct (build_problem two_days protein_profile 2 "minimize_cost" LpMinimize)
    as [p|e] eqn:Hb; [|by vm_compute in Hb].
  exists p. split; [done|]. split; [by eapply total_constraint_seven|].
  pose proof (day_constraint_in _ _ _ _ _ _ 0 Hb ltac:(vm_compute; lia)) as H0.
  pose proof (day_constraint_in _ _ _ _ _ _ 1 Hb ltac:(vm_compute; lia)) as H1.
  pose proof (total_constraint_in _ _ _ _ _ _ Hb) as H7.
  split.
  - vm_compute in Hb. injection Hb as <-. simpl.
    rewrite !elem_of_cons, elem_of_nil.
    intros H. repeat (destruct H as [H|H]; [discriminate H|]). done.
  - intros x. destruct (feasibleb x p) eqn:Hf; [|done]. exfalso.
    apply (feasibleb_holds x p _ Hf) in H0 as [H0 _].
    apply (feasibleb_holds x p _ Hf) in H1 as [H1 _].
    apply (feasibleb_holds x p _ Hf) in H7 as [H7 _].
    revert H0 H1 H7. unfold holdsb. cbn.
    destruct (x (0, 0)), (x (1, 0)), (x (2, 0)); try done.
    destruct (x (0, 1)), (x (1, 1)), (x (2, 1)); try done.
    rewrite !Qeq_bool_iff. intros. lra.
Qed.

(** * Further properties of the code *)

(** ** Reading nutrients *)








(** ** Runs of [solve] that cannot raise *)











(** ** What a run of [solve] leaves in the world *)

Lemma length_pairs (l js : list nat) :
  length (l ≫= λ i, js ≫= λ j, [(i, j)]) = length l * length js.
Proof.
  induction l as [|i l IH]; [done|].
  change ((i :: l) ≫= λ i0, js ≫= λ j, [(i0, j)])
    with ((js ≫= λ j, [(i, j)]) ++ (l ≫= λ i0, js ≫= λ j, [(i0, j)])).
  rewrite length_app, IH, bind_singleton_fmap, length_fmap. simpl. lia.
Qed.

Lemma all_pairs_length self :
  length (all_pairs self) = num_meals self * total_meal_slots self.
Proof.
  unfold all_pairs. rewrite length_pairs. unfold slots.
  by rewrite !length_seq.
Qed.

(** X3: once the profile name is found and the objective accepted, [solve]
    creates exactly one decision variable per (meal, slot) pair, that is
    [num_meals * total_meal_slots] of them, whether it then returns or
    raises; a run rejected for its profile name or objective creates none. *)
Theorem solve_creates_variables backend pn m obj w out w' :
  solve backend pn m obj w = (out, w') ->
  lp_variables w'
  = lp_variables w
    ++ (if bool_decide (is_Some (nutritional_profiles (optimizer w) !! pn)
                        ∧ (obj = "minimize_cost" ∨ obj = "maximize_rating"))
        then all_pairs (optimizer w) else [])
  ∧ NoDup (all_pairs (optimizer w))
  ∧ length (all_pairs (optimizer w))
    = num_meals (optimizer w) * total_meal_slots (optimizer w).
Proof.
  intros Hrun. split; [|split; [apply all_pairs_NoDup|apply all_pairs_length]].
  revert Hrun.
  destruct (nutritional_profiles (optimizer w) !! pn) as [profile|] eqn:Hp.
  2:{ rewrite solve_unknown_profile by done. intros [= _ <-].
      rewrite bool_decide_eq_false_2; [by rewrite app_nil_r|].
      intros [[? [=]] _]. }
  destruct (objective_cases obj) as [Hobj|[H1 H2]].
  2:{ rewrite (solve_unknown_objective _ _ _ _ _ profile) by done.
      intros [= _ <-].
      rewrite bool_decide_eq_false_2; [by rewrite app_nil_r|]. tauto. }
  rewrite bool_decide_eq_true_2 by eauto.
  destruct (accepted_exists obj Hobj) as [sense Hacc].
  destruct (build_problem (optimizer w) profile m obj sense) as [p|e] eqn:Hb.
  - rewrite (solve_built backend pn m obj w profile sense p Hp Hacc Hb).
    repeat case_bool_decide; by intros [= _ <-].
  - rewrite (solve_build_raises backend pn m obj w profile sense e Hp Hacc Hb).
    by intros [= _ <-].
Qed.

Lemma solve_creates_variables_witness :
  length (lp_variables
            (solve (scripted [LpStatusInfeasible] unset) "healthy-adult" 2
                   "minimize_cost" (fresh weekly)).2) = 21.
Proof.
  destruct (solve (scripted [LpStatusInfeasible] unset) "healthy-adult" 2
              "minimize_cost" (fresh weekly)) as [out w'] eqn:Hrun.
  destruct (solve_creates_variables _ _ _ _ _ _ _ Hrun) as (Hv & _ & Hlen).
  cbn [snd]. rewrite Hv.
  rewrite bool_decide_eq_true_2 by (split; [vm_compute; eauto|by left]).
  rewrite length_app, Hlen. by vm_compute.
Defined.

(** X4: a run of [solve] requests at most two solves; all of them are of
    the one built problem with the default solver, and there are two
    exactly when the first answer is "Not Solved". *)
Theorem solve_requests_at_most_two backend pn m obj w out w' :
  solve backend pn m obj w = (out, w') ->
  ∃ calls,
    solver_calls w' = solver_calls w ++ calls
    ∧ length calls <= 2
    ∧ (∀ c, c ∈ calls ->
         ∃ profile sense p,
           nutritional_profiles (optimizer w) !! pn = Some profile
           ∧ accepted obj sense
           ∧ build_problem (optimizer w) profile m obj sense = Ok p
           ∧ c = (None, p)
           ∧ (length calls = 2
              ↔ (backend (length (solver_calls w)) None p).1
                = LpStatusNotSolved)).
Proof.
  destruct (nutritional_profiles (optimizer w) !! pn) as [profile|] eqn:Hp.
  2:{ rewrite solve_unknown_profile by done. intros [= _ <-].
      exists []. split; [by rewrite app_nil_r|]. split; [simpl; lia|].
      by intros c ?%elem_of_nil. }
  destruct (objective_cases obj) as [[sense Hacc]%accepted_exists|[H1 H2]].
  2:{ rewrite (solve_unknown_objective _ _ _ _ _ profile) by done.
      intros [= _ <-].
      exists []. split; [by rewrite app_nil_r|]. split; [simpl; lia|].
      by intros c ?%elem_of_nil. }
  destruct (build_problem (optimizer w) profile m obj sense) as [p|e] eqn:Hb.
  2:{ rewrite (solve_build_raises backend pn m obj w profile sense e Hp Hacc Hb).
      intros [= _ <-].
      exists []. split; [by rewrite app_nil_r|]. split; [simpl; lia|].
      by intros c ?%elem_of_nil. }
  rewrite (solve_built backend pn m obj w profile sense p Hp Hacc Hb).
  set (st1 := (backend (length (solver_calls w)) None p).1).
  assert (∀ calls : list (option string * LpProblem),
            (length calls = 2 ↔ st1 = LpStatusNotSolved) ->
            ∀ c, c ∈ [(None, p); (None, p)] ->
              ∃ (profile0 : Profile) sense0 p0,
                Some profile = Some profile0
                ∧ accepted obj sense0
                ∧ build_problem (optimizer w) profile0 m obj sense0 = Ok p0
                ∧ c = (@None string, p0)
                ∧ (length calls = 2
                   ↔ (backend (length (solver_calls w)) None p0).1
                     = LpStatusNotSolved)) as Hcalls.
  { intros calls Hlen c Hc. exists profile, sense, p.
    rewrite !elem_of_cons, elem_of_nil in Hc.
    destruct Hc as [->|[->|[]]]; repeat split; try done; apply Hlen. }
  repeat case_bool_decide; intros [= _ <-]; simpl.
  - exists [(None, p)]. split; [done|]. split; [simpl; lia|].
    intros c Hc. apply Hcalls; [|by right].
    simpl. split; [lia|]. intros H'. fold st1 in H. congruence.
  - exists [(None, p); (None, p)]. split; [by rewrite <- app_assoc|].
    split; [simpl; lia|]. intros c Hc. by apply Hcalls.
  - exists [(None, p); (None, p)]. split; [by rewrite <- app_assoc|].
    split; [simpl; lia|]. intros c Hc. by apply Hcalls.
  - exists [(None, p)]. split; [done|]. split; [simpl; lia|].
    intros c Hc. apply Hcalls; [|by right].
    simpl. split; [lia|]. intros H'. by fold st1 in H0.
Qed.

Lemma solve_requests_at_most_two_witness :
  ∃ calls,
    solver_calls
      (solve (scripted [LpStatusNotSolved; LpStatusUndefined] unset)
             "healthy-adult" 3 "minimize_cost" (fresh weekly)).2
    = [] ++ calls
    ∧ length calls <= 2.
Proof.
  destruct (solve (scripted [LpStatusNotSolved; LpStatusUndefined] unset)
              "healthy-adult" 3 "minimize_cost" (fresh weekly))
    as [out w'] eqn:Hrun.
  destruct (solve_requests_at_most_two _ _ _ _ _ _ _ Hrun)
    as (calls & Hc & Hlen & _).
  exists calls. by split.
Defined.



(** ** A meal without a constrained nutrient *)









(** ** Seven selections, seven days *)

Lemma total_meals_expr_pairs self :
  total_meals_expr self = (λ v, (1%Q, v)) <$> all_pairs self.
Proof.
  unfold total_meals_expr, all_pairs.
  induction (seq 0 (num_meals self)) as [|i l IH]; [done|].
  change ((i :: l) ≫= λ i0, slots self ≫= λ j, [(1%Q, (i0, j))])
    with ((slots self ≫= λ j, [(1%Q, (i, j))])
          ++ (l ≫= λ i0, slots self ≫= λ j, [(1%Q, (i0, j))])).
  change ((i :: l) ≫= λ i0, slots self ≫= λ j, [(i0, j)])
    with ((slots self ≫= λ j, [(i, j)])
          ++ (l ≫= λ i0, slots self ≫= λ j, [(i0, j)])).
  rewrite fmap_app, IH. f_equal.
  rewrite !bind_singleton_fmap. by rewrite <- list_fmap_compose.
Qed.

Lemma total_constraint_holds self x :
  (∀ v, v ∈ all_pairs self -> binaryb x v = true) ->
  holdsb x (total_constraint self) = true
  ↔ length (selected_pairs self x) = 7.
Proof.
  intros Hb. destruct (value_counts_selected x (all_pairs self) Hb)
    as (s & Hs & Heq).
  unfold holdsb, total_constraint. simpl.
  rewrite total_meals_expr_pairs, Hs.
  rewrite Qeq_bool_iff, Heq. unfold selected_pairs.
  change 7%Q with (inject_Z 7). rewrite inject_Z_injective. lia.
Qed.

Lemma slot_of_day (mpd d1 d2 s1 s2 : nat) :
  s1 < mpd -> s2 < mpd -> d1 * mpd + s1 = d2 * mpd + s2 -> d1 = d2.
Proof. intros H1 H2 H. nia. Qed.

Lemma days_cover_slots self :
  0 < meals_per_day self ->
  all_pairs self ≡ₚ seq 0 (num_days self) ≫= day_vars self.
Proof.
  intros Hmpd. apply NoDup_Permutation.
  - apply all_pairs_NoDup.
  - apply NoDup_bind; [| |apply NoDup_seq].
    + intros d1 d2 v _ _ (i1 & s1 & -> & _ & Hs1)%day_vars_elem
        (i2 & s2 & [= _ Heq] & _ & Hs2)%day_vars_elem.
      exact (slot_of_day _ _ _ _ _ Hs1 Hs2 Heq).
    + intros d _. apply day_vars_NoDup.
  - intros [i j]. rewrite all_pairs_elem, list_elem_of_bind. split.
    + intros [Hi Hj]. exists (j / meals_per_day self). split.
      * apply day_vars_elem. exists i, (j mod meals_per_day self).
        split; [|split; [done|apply Nat.mod_upper_bound; lia]].
        f_equal. rewrite (Nat.div_mod_eq j (meals_per_day self)) at 1. lia.
      * apply elem_of_seq. split; [lia|]. simpl.
        by apply slot_day_in_range.
    + intros (d & (i' & s & [= -> ->] & Hi & Hs)%day_vars_elem & Hd%elem_of_seq).
      split; [done|]. unfold total_meal_slots. nia.
Qed.

Lemma length_filter_bind {A B} (P : B -> Prop) `{∀ b, Decision (P b)}
    (f : A -> list B) (l : list A) :
  (∀ a, a ∈ l -> length (filter P (f a)) = 1) ->
  length (filter P (l ≫= f)) = length l.
Proof.
  induction l as [|a l IH]; intros Hone; [done|].
  change ((a :: l) ≫= f) with (f a ++ (l ≫= f)).
  rewrite filter_app, length_app, Hone, IH; [done| |by left].
  intros a' Ha'. apply Hone. by right.
Qed.

Lemma extract_solution_inv self x pn solution :
  _extract_solution self x pn = Ok solution ->
  extract_selected self x = Ok (selected_meals solution)
  ∧ _calculate_nutritional_summary (selected_meals solution)
    = Ok (nutritional_summary solution)
  ∧ profile_used solution = pn
  ∧ meal_schedule solution = schedule_of self (selected_meals solution)
  ∧ total_cost solution = Qsum (cost <$> selected_meals solution)
  ∧ num_meals_selected solution = length (selected_meals solution).
Proof.
  unfold _extract_solution.
  destruct (extract_selected self x) as [sel|e]; simpl; [|done].
  destruct (_calculate_nutritional_summary sel) as [s|e] eqn:Hs; simpl; [|done].
  by intros [= <-].
Qed.

(** X7: with a sound backend, every solution [solve] returns selects
    exactly seven meals, one in each day's slot range, and exists only for
    a schedule of seven days. *)
Theorem solution_selects_seven backend pn m obj w solution st ov w' :
  sound backend ->
  solve backend pn m obj w = (Ok (Solved solution st ov), w') ->
  num_meals_selected solution = 7
  ∧ length (selected_meals solution) = 7
  ∧ num_days (optimizer w) = 7
  ∧ ∃ x, extract_selected (optimizer w) x = Ok (selected_meals solution)
         ∧ ∀ d, d < num_days (optimizer w) ->
                length (filter (λ v, is_selected x v)
                          (day_vars (optimizer w) d)) = 1.
Proof.
  intros Hsound Hrun.
  apply solve_solved_inv in Hrun
    as (profile & sense & p & n & Hp & Hacc & Hb & Hopt & Hex).
  set (x := (backend n None p).2) in *. set (self := optimizer w) in *.
  assert (feasibleb x p = true) as Hf by (by apply Hsound).
  apply extract_solution_inv in Hex as (Hsel & _ & _ & _ & _ & Hnum).
  destruct (extract_selected_ok self x) as (entries & He & HF).
  rewrite Hsel in He. injection He as <-.
  apply Forall2_length in HF.
  destruct (feasibleb_holds x p (total_constraint self) Hf) as [Htot Hbin];
    [by eapply total_constraint_in|].
  assert (∀ v, v ∈ all_pairs self -> binaryb x v = true) as Hball.
  { intros v Hv. apply (Hbin (1%Q, v)). simpl.
    rewrite total_meals_expr_pairs. by apply list_elem_of_fmap_2. }
  apply total_constraint_holds in Htot; [|done].
  assert (∀ d, d < num_days self ->
               length (filter (λ v, is_selected x v) (day_vars self d)) = 1)
    as Hday.
  { intros d Hd.
    destruct (feasibleb_holds x p (day_constraint self d) Hf) as [Hh Hbd];
      [by eapply day_constraint_in|].
    apply day_constraint_holds; [|done].
    intros v Hv. apply (Hbd (1%Q, v)). simpl. by apply list_elem_of_fmap_2. }
  assert (num_days self = 7) as Hdays.
  { destruct (meals_per_day self) as [|k] eqn:Hmpd.
    - exfalso. unfold selected_pairs in Htot.
      assert (all_pairs self = []) as Hnil.
      { apply length_zero_iff_nil. rewrite all_pairs_length.
        unfold total_meal_slots. rewrite Hmpd. lia. }
      rewrite Hnil in Htot. done.
    - rewrite <- Htot. unfold selected_pairs.
      rewrite (days_cover_slots self) by lia.
      rewrite length_filter_bind; [by rewrite length_seq|].
      intros d Hd%elem_of_seq. apply Hday. lia. }
  split; [lia|]. split; [lia|]. split; [done|]. exists x. by split.
Qed.

Lemma solution_selects_seven_witness :
  ∃ solution st ov w',
    solve (proposing sample_plan) "healthy-adult" 3 "minimize_cost" (fresh weekly)
    = (Ok (Solved solution st ov), w')
    ∧ num_meals_selected solution = 7.
Proof.
  destruct (solve (proposing sample_plan) "healthy-adult" 3 "minimize_cost"
              (fresh weekly)) as [out w'] eqn:Hrun.
  assert (∃ solution st ov, out = Ok (Solved solution st ov))
    as (solution & st & ov & ->).
  { apply (f_equal fst) in Hrun. vm_compute in Hrun. rewrite <- Hrun. eauto. }
  exists solution, st, ov, w'. split; [done|].
  exact (proj1 (solution_selects_seven (proposing sample_plan) "healthy-adult" 3
                  "minimize_cost" (fresh weekly) solution st ov w'
                  (proposing_sound sample_plan) Hrun)).
Defined.

(** ** The objective value of a returned solution *)












(** ** The schedule and the summary of an extracted solution *)

Lemma foldl_insert_nil_lookup {V} (acc : gmap string (list V)) ds d :
  foldl (λ sch d0, <[d0 := []]> sch) acc ds !! d
  = if decide (d ∈ ds) then Some [] else acc !! d.
Proof.
  revert acc. induction ds as [|d0 ds IH]; intros acc.
  - case_decide as H; [by apply elem_of_nil in H|done].
  - cbn [foldl]. rewrite IH.
    destruct (decide (d ∈ ds)) as [Hin|Hnin];
      destruct (decide (d ∈ d0 :: ds)) as [Hin'|Hnin']; try done.
    + exfalso. apply Hnin'. by right.
    + apply elem_of_cons in Hin' as [->|?]; [apply lookup_insert_eq|done].
    + rewrite lookup_insert_ne; [done|]. intros ->. apply Hnin'. by left.
Qed.

Lemma foldl_alter_lookup (acc : gmap string (list MealInfo)) sel d :
  foldl (λ sch info, alter (λ l, l ++ [info]) (day info) sch) acc sel !! d
  = (λ l, l ++ filter (λ e, day e = d) sel) <$> acc !! d.
Proof.
  revert acc. induction sel as [|e sel IH]; intros acc; simpl.
  - destruct (acc !! d); simpl; [by rewrite app_nil_r|done].
  - rewrite IH. destruct (decide (day e = d)) as [Hd|Hd].
    + rewrite Hd, lookup_alter_eq, filter_cons_True by done.
      destruct (acc !! d); simpl; [|done]. by rewrite <- app_assoc.
    + rewrite lookup_alter_ne, filter_cons_False by done. done.
Qed.

Lemma schedule_of_lookup self sel d :
  schedule_of self sel !! d
  = if decide (d ∈ days_of_week self)
    then Some (filter (λ e, day e = d) sel) else None.
Proof.
  unfold schedule_of. rewrite foldl_alter_lookup, foldl_insert_nil_lookup.
  case_decide; [done|]. by rewrite lookup_empty.
Qed.

Lemma entry_of_day_in self pairs entries :
  Forall2 (entry_of self) pairs entries ->
  Forall (λ info, day info ∈ days_of_week self) entries.
Proof.
  induction 1 as [|v info pairs entries (_ & Hd & _) _ IH]; constructor; [|done].
  apply list_elem_of_lookup. eauto.
Qed.

(** X9: in an extracted solution the schedule has exactly the configured
    day names as keys, each day lists, in extraction order, the selected
    entries of that day, and every selected entry is listed (its day is a
    configured one). *)
Theorem meal_schedule_of_solution self x pn solution :
  _extract_solution self x pn = Ok solution ->
  (∀ d, meal_schedule solution !! d
        = if decide (d ∈ days_of_week self)
          then Some (filter (λ e, day e = d) (selected_meals solution))
          else None)
  ∧ ∀ e, e ∈ selected_meals solution ->
         ∃ l, meal_schedule solution !! day e = Some l ∧ e ∈ l.
Proof.
  intros (Hsel & _ & _ & Hsch & _)%extract_solution_inv.
  split; [intros d; rewrite Hsch; apply schedule_of_lookup|].
  intros e He. rewrite Hsch, schedule_of_lookup.
  destruct (extract_selected_ok self x) as (entries & Hex & HF).
  rewrite Hsel in Hex. injection Hex as <-.
  apply entry_of_day_in in HF. rewrite Forall_forall in HF.
  rewrite decide_True by (by apply HF).
  eexists. split; [done|]. by apply list_elem_of_filter.
Qed.

Lemma meal_schedule_of_solution_witness :
  length <$> meal_schedule sample_solution !! "Sunday" = Some 1
  ∧ meal_schedule sample_solution !! "Someday" = None.
Proof.
  destruct (meal_schedule_of_solution weekly sample_plan "healthy-adult"
              sample_solution) as [Hsch _].
  - by vm_compute.
  - rewrite !Hsch. split; by vm_compute.
Defined.

Lemma foldl_insert_rows_notin {V} (acc : gmap string V)
    (rows : list (string * V)) k :
  k ∉ rows.*1 ->
  foldl (λ summary '(k0, v), <[k0 := v]> summary) acc rows !! k = acc !! k.
Proof.
  revert acc. induction rows as [|[k0 v0] rows IH]; intros acc Hk; [done|].
  rewrite fmap_cons in Hk. apply not_elem_of_cons in Hk as [Hne Hk].
  cbn [foldl]. rewrite IH by done. by rewrite lookup_insert_ne.
Qed.

Lemma foldl_insert_rows_in {V} (acc : gmap string V)
    (rows : list (string * V)) k v :
  NoDup rows.*1 -> (k, v) ∈ rows ->
  foldl (λ summary '(k0, v0), <[k0 := v0]> summary) acc rows !! k = Some v.
Proof.
  revert acc. induction rows as [|[k0 v0] rows IH]; intros acc Hnd Hin.
  - by apply elem_of_nil in Hin.
  - rewrite fmap_cons in Hnd. apply NoDup_cons in Hnd as [Hk0 Hnd].
    cbn [foldl]. apply elem_of_cons in Hin as [[= -> ->]|Hin].
    + rewrite foldl_insert_rows_notin by done. apply lookup_insert_eq.
    + by apply IH.
Qed.
